(** * PyConvSegNet: shapes, construction checks and control flow

    A shallow embedding of [model/pyconvsegnet.py].  Tensors are followed
    through the network by their shape (batch, channels, height, width);
    constructors and forward passes return either a value or the Python
    exception they raise, and a forward pass also records, in order, the
    primitive layers it has started to execute.  The instance attributes
    of the top-level model live in a dictionary, as they do in Python, so
    that reading an attribute nobody assigned is an [AttributeError]. *)

From Stdlib Require Import ZArith QArith Qround List Bool String Lia.
From stdpp Require Import gmap strings.

Local Open Scope string_scope.
Local Open Scope list_scope.
Local Open Scope Z_scope.

(** ** Exceptions and results *)

Inductive exn : Type :=
| AssertionError
| AttributeError (name : string)
| UnboundLocalError (name : string)
| IndexError
| TypeError
| ZeroDivisionError
| ValueError (msg : string)
| RuntimeError (msg : string).

Inductive result (A : Type) : Type :=
| Ok (a : A)
| Err (e : exn).

Arguments Ok {A} a.
Arguments Err {A} e.

Definition rbind {A B : Type} (r : result A) (k : A -> result B) : result B :=
  match r with
  | Ok a => k a
  | Err e => Err e
  end.

Notation "'try' x ':=' r 'in' k" := (rbind r (fun x => k))
  (at level 10, x name, r at level 100, k at level 200).

(** Python's [a // b] on integers: the floor of the quotient, as [Z.div]
    computes it, and an exception for a zero divisor. *)
Definition floordiv (a b : Z) : result Z :=
  if b =? 0 then Err ZeroDivisionError else Ok (a / b).

(** Python's [assert]. *)
Definition py_assert (b : bool) : result unit :=
  if b then Ok tt else Err AssertionError.

(** [l[i]] on a Python list. *)
Definition getitem {A : Type} (l : list A) (i : nat) : result A :=
  match l !! i with
  | Some a => Ok a
  | None => Err IndexError
  end.

(** [[f(i) for i in l]], stopping at the first exception. *)
Fixpoint rmap {A B : Type} (f : A -> result B) (l : list A) : result (list B) :=
  match l with
  | [] => Ok []
  | a :: l' => try b := f a in try bs := rmap f l' in Ok (b :: bs)
  end.

(** ** The forward monad: a result together with the layers executed *)

Definition M (A : Type) : Type := (result A * list string)%type.

Definition ret {A : Type} (a : A) : M A := (Ok a, []).

Definition raise {A : Type} (e : exn) : M A := (Err e, []).

Definition lift {A : Type} (r : result A) : M A := (r, []).

Definition bind {A B : Type} (m : M A) (k : A -> M B) : M B :=
  match m with
  | (Ok a, t1) => let (r, t2) := k a in (r, t1 ++ t2)
  | (Err e, t1) => (Err e, t1)
  end.

(** A primitive layer starts executing. *)
Definition tick (name : string) : M unit := (Ok tt, [name]).

Notation "'let*' x ':=' m 'in' k" := (bind m (fun x => k))
  (at level 10, x name, m at level 100, k at level 200).
Notation "m '>>' k" := (bind m (fun _ => k))
  (at level 100, k at level 200, right associativity).

Definition outcome {A : Type} (m : M A) : result A := fst m.
Definition executed {A : Type} (m : M A) : list string := snd m.

Fixpoint mmap {A B : Type} (f : A -> M B) (l : list A) : M (list B) :=
  match l with
  | [] => ret []
  | a :: l' => let* b := f a in let* bs := mmap f l' in ret (b :: bs)
  end.

(** ** Tensor shapes *)

(** The size of a 4-dimensional tensor: [x.size()] is
    [(batch, channels, height, width)]. *)
Record Size4 : Type := mkSize4 {
  batch : Z;
  channels : Z;
  height : Z;
  width : Z
}.

(** The size of a label map or of an argmax prediction:
    [(batch, height, width)]. *)
Record Size3 : Type := mkSize3 {
  batch3 : Z;
  height3 : Z;
  width3 : Z
}.

(** A tensor with at least one element. *)
Definition nonempty (x : Size4) : Prop :=
  0 < batch x /\ 0 < channels x /\ 0 < height x /\ 0 < width x.

(** ** torch primitives, at the level of shapes *)

(** [nn.Conv2d] with square kernel, stride, padding and dilation. *)
Record Conv2d : Type := mkConv2d {
  in_channels : Z;
  out_channels : Z;
  kernel_size : Z;
  stride : Z;
  padding : Z;
  dilation : Z;
  groups : Z;
  bias : bool
}.

(** The constructor of [nn.Conv2d] rejects a non-positive group count and
    channel counts that the group count does not divide; allocating the
    weight then refuses a negative channel count. *)
Definition Conv2d_init (in_ch out_ch kernel strd pad dil grp : Z) (b : bool)
  : result Conv2d :=
  if grp <=? 0 then Err (ValueError "groups must be a positive integer")
  else if negb (in_ch mod grp =? 0)
  then Err (ValueError "in_channels must be divisible by groups")
  else if negb (out_ch mod grp =? 0)
  then Err (ValueError "out_channels must be divisible by groups")
  else if (in_ch <? 0) || (out_ch <? 0)
  then Err (RuntimeError "Trying to create tensor with negative dimension")
  else Ok (mkConv2d in_ch out_ch kernel strd pad dil grp b).

(** Output extent of a convolution along one spatial axis. *)
Definition conv_out (c : Conv2d) (d : Z) : Z :=
  (d + 2 * padding c - dilation c * (kernel_size c - 1) - 1) / stride c + 1.

(** Applying the convolution: the input must have [in_channels]
    channels and be no smaller than the kernel; an input without channels
    gives an output without channels, and a weight without output
    channels is refused on any other input. *)
Definition Conv2d_shape (c : Conv2d) (x : Size4) : result Size4 :=
  if negb (channels x =? in_channels c)
  then Err (RuntimeError "input channels do not match the weight")
  else if (stride c <=? 0) || (dilation c <=? 0) || (padding c <? 0)
          || (kernel_size c <=? 0)
  then Err (RuntimeError "unsupported stride, dilation, padding or kernel")
  else if (height x + 2 * padding c <? dilation c * (kernel_size c - 1) + 1)
          || (width x + 2 * padding c <? dilation c * (kernel_size c - 1) + 1)
  then Err (RuntimeError "kernel size can't be greater than actual input size")
  else if channels x =? 0
  then Ok (mkSize4 (batch x) 0 (conv_out c (height x)) (conv_out c (width x)))
  else if out_channels c <=? 0
  then Err (RuntimeError "convolution with a weight that has no element")
  else Ok (mkSize4 (batch x) (out_channels c)
                   (conv_out c (height x)) (conv_out c (width x))).

Definition Conv2d_forward (c : Conv2d) (x : Size4) : M Size4 :=
  tick "Conv2d" >> lift (Conv2d_shape c x).

(** [nn.BatchNorm2d(num_features)]: the shape is kept; in training mode
    a single value per channel is refused. *)
Definition BatchNorm2d_shape (num_features : Z) (training : bool) (x : Size4)
  : result Size4 :=
  if negb (channels x =? num_features)
  then Err (RuntimeError "running_mean should contain as many elements as channels")
  else if training && (batch x * height x * width x =? 1)
  then Err (ValueError "Expected more than 1 value per channel when training")
  else Ok x.

(** [nn.AdaptiveAvgPool2d(bins)] maps any non-empty plane to bins x bins. *)
Definition AdaptiveAvgPool2d_shape (bins : Z) (x : Size4) : result Size4 :=
  if (channels x <=? 0) || (height x <=? 0) || (width x <=? 0)
  then Err (RuntimeError "expected non-zero size for non-batch dimensions")
  else Ok (mkSize4 (batch x) (channels x) bins bins).

(** [F.interpolate(x, size, mode='bilinear', align_corners=True)]. *)
Definition interpolate_shape (x : Size4) (size : Z * Z) : result Size4 :=
  if (channels x <=? 0) || (height x <=? 0) || (width x <=? 0)
     || (fst size <=? 0) || (snd size <=? 0)
  then Err (RuntimeError "Input and output sizes should be greater than 0")
  else Ok (mkSize4 (batch x) (channels x) (fst size) (snd size)).

Definition interpolate (x : Size4) (size : Z * Z) : M Size4 :=
  tick "interpolate" >> lift (interpolate_shape x size).

(** [torch.cat(tensors, 1)]: the tensors are stacked along the channel
    axis, in the order of the list; the other extents must agree. *)
Definition cat2 (x y : Size4) : result Size4 :=
  if (batch x =? batch y) && (height x =? height y) && (width x =? width y)
  then Ok (mkSize4 (batch x) (channels x + channels y) (height x) (width x))
  else Err (RuntimeError "Sizes of tensors must match except in dimension 1").

Fixpoint cat_from (acc : Size4) (l : list Size4) : result Size4 :=
  match l with
  | [] => Ok acc
  | y :: l' => try acc' := cat2 acc y in cat_from acc' l'
  end.

Definition cat (l : list Size4) : result Size4 :=
  match l with
  | [] => Err (ValueError "torch.cat(): expected a non-empty list of Tensors")
  | x :: l' => cat_from x l'
  end.

(** Python's [sum] on a list of integers. *)
Definition Zsum (l : list Z) : Z := fold_right Z.add 0 l.

(** ** PyConv2d *)

Record PyConv2d : Type := mkPyConv2d {
  pyconv_levels : list Conv2d
}.

(** The constructor fills [pyconv_levels] position by position, for [i]
    in [range(len(pyconv_kernels))], and stops at the first level that
    [nn.Conv2d] refuses. *)
Definition PyConv2d_init (in_ch : Z) (out_chs pyconv_kernels pyconv_groups : list Z)
    (strd dil : Z) (b : bool) : result PyConv2d :=
  try _ := py_assert ((length out_chs =? length pyconv_kernels)%nat
                      && (length pyconv_kernels =? length pyconv_groups)%nat) in
  try levels :=
    rmap (fun i : nat =>
            try o := getitem out_chs i in
            try k := getitem pyconv_kernels i in
            try g := getitem pyconv_groups i in
            Conv2d_init in_ch o k strd (k / 2) dil g b)
         (seq 0 (length pyconv_kernels)) in
  Ok (mkPyConv2d levels).

(** [forward], for any representation [T] of tensors: [level_apply] is
    the call [level(x)] and [torch_cat] is [torch.cat(out, 1)]. *)
Definition PyConv2d_forward_on {T : Type} (level_apply : Conv2d -> T -> M T)
    (torch_cat : list T -> M T) (self : PyConv2d) (x : T) : M T :=
  let* out := mmap (fun level => level_apply level x) (pyconv_levels self) in
  torch_cat out.

(** [torch.cat(out, 1)] on shapes. *)
Definition cat_forward (out : list Size4) : M Size4 := tick "cat" >> lift (cat out).

Definition PyConv2d_forward (self : PyConv2d) (x : Size4) : M Size4 :=
  PyConv2d_forward_on Conv2d_forward cat_forward self x.

(** ** PyConv4 *)

Record PyConv4 : Type := mkPyConv4 {
  conv2_1 : Conv2d;
  conv2_2 : Conv2d;
  conv2_3 : Conv2d;
  conv2_4 : Conv2d
}.

Definition default_pyconv_kernels : list Z := [3; 5; 7; 9].
Definition default_pyconv_groups : list Z := [1; 4; 8; 16].

Definition PyConv4_init (inplans planes : Z) (pyconv_kernels : list Z) (strd : Z)
    (pyconv_groups : list Z) : result PyConv4 :=
  try k0 := getitem pyconv_kernels 0 in
  try g0 := getitem pyconv_groups 0 in
  try c1 := Conv2d_init inplans (planes / 4) k0 strd (k0 / 2) 1 g0 false in
  try k1 := getitem pyconv_kernels 1 in
  try g1 := getitem pyconv_groups 1 in
  try c2 := Conv2d_init inplans (planes / 4) k1 strd (k1 / 2) 1 g1 false in
  try k2 := getitem pyconv_kernels 2 in
  try g2 := getitem pyconv_groups 2 in
  try c3 := Conv2d_init inplans (planes / 4) k2 strd (k2 / 2) 1 g2 false in
  try k3 := getitem pyconv_kernels 3 in
  try g3 := getitem pyconv_groups 3 in
  try c4 := Conv2d_init inplans (planes / 4) k3 strd (k3 / 2) 1 g3 false in
  Ok (mkPyConv4 c1 c2 c3 c4).

Definition PyConv4_forward_on {T : Type} (level_apply : Conv2d -> T -> M T)
    (torch_cat : list T -> M T) (self : PyConv4) (x : T) : M T :=
  let* y1 := level_apply (conv2_1 self) x in
  let* y2 := level_apply (conv2_2 self) x in
  let* y3 := level_apply (conv2_3 self) x in
  let* y4 := level_apply (conv2_4 self) x in
  torch_cat [y1; y2; y3; y4].

Definition PyConv4_forward (self : PyConv4) (x : Size4) : M Size4 :=
  PyConv4_forward_on Conv2d_forward cat_forward self x.

(** ** Which level produced which channel *)

(** A second reading of the same forward passes: a tensor is kept as the
    list of its channels, each channel named by the convolution that
    produced it.  A level yields [out_channels] channels of its own, and
    [torch.cat(out, 1)] puts the channel lists one after the other. *)
Definition level_channels (level : Conv2d) : list Conv2d :=
  replicate (Z.to_nat (out_channels level)) level.

Definition produced_by (level : Conv2d) (x : list Conv2d) : M (list Conv2d) :=
  tick "Conv2d" >> ret (level_channels level).

Definition cat_channels (out : list (list Conv2d)) : M (list Conv2d) :=
  tick "cat" >>
  match out with
  | [] => raise (ValueError "torch.cat(): expected a non-empty list of Tensors")
  | _ => ret (concat out)
  end.

(** ** Layers of an [nn.Sequential] *)

Inductive layer : Type :=
| LConv2d (c : Conv2d)
| LBatchNorm2d (num_features : Z)
| LReLU
| LDropout2d (p : Q)
| LAdaptiveAvgPool2d (bins : Z)
| LPyConv4 (m : PyConv4).

(** The normalisation family handed to the constructors: a function from
    the channel count to a layer.  [nn.BatchNorm2d] is the default. *)
Definition NormFamily : Type := Z -> layer.

Definition BatchNorm2d : NormFamily := LBatchNorm2d.

(** [nn.Dropout2d(p)] refuses a probability outside [0, 1]. *)
Definition Dropout2d_init (p : Q) : result layer :=
  if Qle_bool 0 p && Qle_bool p 1 then Ok (LDropout2d p)
  else Err (ValueError "dropout probability has to be between 0 and 1").

Definition layer_forward (training : bool) (l : layer) (x : Size4) : M Size4 :=
  match l with
  | LConv2d c => Conv2d_forward c x
  | LBatchNorm2d n => tick "BatchNorm2d" >> lift (BatchNorm2d_shape n training x)
  | LReLU => tick "ReLU" >> ret x
  | LDropout2d _ => tick "Dropout2d" >> ret x
  | LAdaptiveAvgPool2d bins =>
      tick "AdaptiveAvgPool2d" >> lift (AdaptiveAvgPool2d_shape bins x)
  | LPyConv4 m => PyConv4_forward m x
  end.

Fixpoint Sequential_forward (training : bool) (ls : list layer) (x : Size4)
  : M Size4 :=
  match ls with
  | [] => ret x
  | l :: ls' =>
      let* y := layer_forward training l x in Sequential_forward training ls' y
  end.

(** ** GlobalPyConvBlock *)

Record GlobalPyConvBlock : Type := mkGlobalPyConvBlock {
  global_features : list layer
}.

Definition GlobalPyConvBlock_init (in_dim reduction_dim bins : Z)
    (BatchNorm : NormFamily) : result GlobalPyConvBlock :=
  try c1 := Conv2d_init in_dim reduction_dim 1 1 0 1 1 false in
  try p4 := PyConv4_init reduction_dim reduction_dim default_pyconv_kernels 1
                         default_pyconv_groups in
  try c2 := Conv2d_init reduction_dim reduction_dim 1 1 0 1 1 false in
  Ok (mkGlobalPyConvBlock
        [ LAdaptiveAvgPool2d bins;
          LConv2d c1;
          BatchNorm reduction_dim;
          LReLU;
          LPyConv4 p4;
          BatchNorm reduction_dim;
          LReLU;
          LConv2d c2;
          BatchNorm reduction_dim;
          LReLU ]).

Definition GlobalPyConvBlock_forward (training : bool) (self : GlobalPyConvBlock)
    (x : Size4) : M Size4 :=
  let x_size := x in
  let* f := Sequential_forward training (global_features self) x in
  interpolate f (height x_size, width x_size).

(** ** LocalPyConvBlock *)

Record LocalPyConvBlock : Type := mkLocalPyConvBlock {
  local_layers : list layer
}.

Definition LocalPyConvBlock_init (inplanes planes : Z) (BatchNorm : NormFamily)
    (reduction1 : Z) : result LocalPyConvBlock :=
  try reduced := floordiv inplanes reduction1 in
  try c1 := Conv2d_init inplanes reduced 1 1 0 1 1 false in
  try p4 := PyConv4_init reduced reduced default_pyconv_kernels 1
                         default_pyconv_groups in
  try c2 := Conv2d_init reduced planes 1 1 0 1 1 false in
  Ok (mkLocalPyConvBlock
        [ LConv2d c1;
          BatchNorm reduced;
          LReLU;
          LPyConv4 p4;
          BatchNorm reduced;
          LReLU;
          LConv2d c2;
          BatchNorm planes;
          LReLU ]).

Definition LocalPyConvBlock_forward (training : bool) (self : LocalPyConvBlock)
    (x : Size4) : M Size4 :=
  Sequential_forward training (local_layers self) x.

(** ** MergeLocalGlobal *)

Record MergeLocalGlobal : Type := mkMergeLocalGlobal {
  merge_features : list layer
}.

Definition MergeLocalGlobal_init (inplanes planes : Z) (BatchNorm : NormFamily)
  : result MergeLocalGlobal :=
  try c := Conv2d_init inplanes planes 3 1 1 1 1 false in
  Ok (mkMergeLocalGlobal [ LConv2d c; BatchNorm planes; LReLU ]).

Definition MergeLocalGlobal_forward (training : bool) (self : MergeLocalGlobal)
    (local_context global_context : Size4) : M Size4 :=
  let* x := (tick "cat" >> lift (cat [local_context; global_context])) in
  Sequential_forward training (merge_features self) x.

(** ** PyConvHead *)

Record PyConvHead : Type := mkPyConvHead {
  local_context : LocalPyConvBlock;
  global_context : GlobalPyConvBlock;
  merge_context : MergeLocalGlobal
}.

Definition PyConvHead_init (inplanes planes : Z) (BatchNorm : NormFamily)
  : result PyConvHead :=
  let out_size_local_context := 512 in
  let out_size_global_context := 512 in
  try lc := LocalPyConvBlock_init inplanes out_size_local_context BatchNorm 4 in
  try gc := GlobalPyConvBlock_init inplanes out_size_global_context 9 BatchNorm in
  try mc := MergeLocalGlobal_init (out_size_local_context + out_size_global_context)
                                  planes BatchNorm in
  Ok (mkPyConvHead lc gc mc).

Definition PyConvHead_forward (training : bool) (self : PyConvHead) (x : Size4)
  : M Size4 :=
  let* l := LocalPyConvBlock_forward training (local_context self) x in
  let* g := GlobalPyConvBlock_forward training (global_context self) x in
  MergeLocalGlobal_forward training (merge_context self) l g.

(** ** Losses, backbone stages and Python values *)

(** A loss is kept symbolic: the criterion applied to logits and a label
    map, or a loss multiplied by an integer. *)
Inductive Loss : Type :=
| CriterionValue (input : Size4) (target : Size3)
| LossTimes (l : Loss) (k : Z).

Definition Criterion : Type := Size4 -> option Size3 -> result Loss.

(** [nn.CrossEntropyLoss(ignore_index=...)] on logits (N, C, H, W) and a
    label map (N, H, W). *)
Definition CrossEntropyLoss (ignore_index : Z) : Criterion :=
  fun x y =>
    match y with
    | None => Err TypeError
    | Some t =>
        if (batch x =? batch3 t) && (height x =? height3 t) && (width x =? width3 t)
        then Ok (CriterionValue x t)
        else Err (ValueError "input and target sizes do not match")
    end.

(** A backbone stage is an external module: given the mode (training or
    not) and an input size it fails or yields an output size. *)
Definition Stage : Type := bool -> Size4 -> result Size4.

Inductive pyval : Type :=
| VNone
| VBool (b : bool)
| VInt (z : Z)
| VCriterion (c : Criterion)
| VStage (s : Stage)
| VPyConvHead (h : PyConvHead)
| VSequential (ls : list layer).

(** Python truth value: [None], [False], 0 and a container of length 0
    (an [nn.Sequential] without layers) are false; a criterion, a stage
    and a head define neither [__bool__] nor [__len__] and are true, as
    any object is by default. *)
Definition truthy (v : pyval) : bool :=
  match v with
  | VNone => false
  | VBool b => b
  | VInt z => negb (z =? 0)
  | VSequential [] => false
  | _ => true
  end.

(** [nn.Module.__init__]: a fresh module is in training mode. *)
Definition Module_init : gmap string pyval := {[ "training" := VBool true ]}.

Definition setattr (self : gmap string pyval) (name : string) (v : pyval)
  : gmap string pyval := <[name := v]> self.

Definition getattr (self : gmap string pyval) (name : string) : M pyval :=
  match self !! name with
  | Some v => ret v
  | None => raise (AttributeError name)
  end.

Definition getattr_int (self : gmap string pyval) (name : string) : M Z :=
  let* v := getattr self name in
  match v with
  | VInt z => ret z
  | VBool b => ret (if b then 1 else 0)
  | _ => raise TypeError
  end.

(** [model.eval()] and [model.train()]. *)
Definition PyConvSegNet_eval (self : gmap string pyval) : gmap string pyval :=
  setattr self "training" (VBool false).

Definition PyConvSegNet_train (self : gmap string pyval) : gmap string pyval :=
  setattr self "training" (VBool true).

(** The mode the submodules run in: [train()] and [eval()] set it on the
    whole tree, so it is the mode of the root. *)
Definition mode (self : gmap string pyval) : bool :=
  match self !! "training" with
  | Some v => truthy v
  | None => false
  end.

(** [self.<name>(x)] for a submodule. *)
Definition call_attr (self : gmap string pyval) (name : string) (x : Size4)
  : M Size4 :=
  let* v := getattr self name in
  match v with
  | VStage s => tick name >> lift (s (mode self) x)
  | VPyConvHead h => PyConvHead_forward (mode self) h x
  | VSequential ls => Sequential_forward (mode self) ls x
  | _ => raise TypeError
  end.

(** [self.criterion(x, y)]. *)
Definition call_criterion (self : gmap string pyval) (x : Size4) (y : option Size3)
  : M Loss :=
  let* v := getattr self "criterion" in
  match v with
  | VCriterion c => lift (c x y)
  | _ => raise TypeError
  end.

(** Python's [int] on a number: truncation towards zero. *)
Definition py_int (q : Q) : Z := Z.quot (Qnum q) (Z.pos (Qden q)).

(** [int((d - 1) / 8 * zoom_factor + 1)] with true division. *)
Definition target_dim (d zoom_factor : Z) : Z :=
  py_int (inject_Z (d - 1) / inject_Z 8 * inject_Z zoom_factor + inject_Z 1)%Q.

(** [x.max(1)[1]]: the index of the largest channel at every position. *)
Definition argmax_channels (x : Size4) : result Size3 :=
  if channels x <=? 0
  then Err (RuntimeError "max(): cannot reduce over a dimension of size 0")
  else Ok (mkSize3 (batch x) (height x) (width x)).

Inductive Output : Type :=
| Logits (x : Size4)
| Triple (prediction : Size3) (main_loss aux_loss : Loss).

(** ** PyConvSegNet *)

(** The end of [forward], from [if self.training:] on: the triple of
    training mode, or the logits alone. *)
Definition forward_outputs (self : gmap string pyval) (x out_stage3 : Size4)
    (h w : Z) (y : option Size3) : M Output :=
  let* training := getattr self "training" in
  if truthy training then
    let* main_loss := call_criterion self x y in
    let* merge_with_stages := getattr self "merge_with_stages" in
    let* aux_loss :=
      (if negb (truthy merge_with_stages) then
         let* aux := call_attr self "aux" out_stage3 in
         let* zf := getattr_int self "zoom_factor" in
         if negb (zf =? 1) then
           let* aux := interpolate aux (h, w) in
           let* l := call_criterion self aux y in
           ret (Some l)
         else ret None
       else ret (Some (LossTimes main_loss 0))) in
    let* prediction := lift (argmax_channels x) in
    match aux_loss with
    | Some l => ret (Triple prediction main_loss l)
    | None => raise (UnboundLocalError "aux_loss")
    end
  else ret (Logits x).

Definition PyConvSegNet_forward (self : gmap string pyval) (x : Size4)
    (y : option Size3) : M Output :=
  let x_size := x in
  lift (py_assert (((height x_size - 1) mod 8 =? 0)
                   && ((width x_size - 1) mod 8 =? 0))) >>
  let* zf := getattr_int self "zoom_factor" in
  let h := target_dim (height x_size) zf in
  let* zf := getattr_int self "zoom_factor" in
  let w := target_dim (width x_size) zf in
  let* x := call_attr self "layer0" x in
  let* x := call_attr self "layer1" x in
  let* x := call_attr self "layer2" x in
  let* out_stage3 := call_attr self "layer3" x in
  let* x := call_attr self "layer4" out_stage3 in
  let* x := call_attr self "pyconvhead" x in
  let* x := call_attr self "cls" x in
  let* zf := getattr_int self "zoom_factor" in
  let* x := (if negb (zf =? 1) then interpolate x (h, w) else ret x) in
  forward_outputs self x out_stage3 h w y.

Section Construction.

(** The backbone provider [model.build_backbone_layers] lies outside
    this module: from (backbone_net, layers, pretrained,
    backbone_output_stride, convert_bn) it fails or returns the five
    stages. *)
Variable build_backbone_layers :
  string -> Z -> bool -> Z -> NormFamily ->
  result (Stage * Stage * Stage * Stage * Stage).

Definition PyConvSegNet_init (layers : Z) (dropout : Q) (classes zoom_factor : Z)
    (criterion : Criterion) (BatchNorm : NormFamily) (pretrained : bool)
    (backbone_output_stride : Z) (backbone_net : string)
  : result (gmap string pyval) :=
  let self := Module_init in
  try _ := py_assert (existsb (Z.eqb layers) [50; 101; 152; 200]) in
  try _ := py_assert (1 <? classes) in
  try _ := py_assert (existsb (Z.eqb zoom_factor) [1; 2; 4; 8]) in
  let self := setattr self "zoom_factor" (VInt zoom_factor) in
  let self := setattr self "criterion" (VCriterion criterion) in
  try stages := build_backbone_layers backbone_net layers pretrained
                                      backbone_output_stride BatchNorm in
  let '(l0, l1, l2, l3, l4) := stages in
  let self := setattr self "layer0" (VStage l0) in
  let self := setattr self "layer1" (VStage l1) in
  let self := setattr self "layer2" (VStage l2) in
  let self := setattr self "layer3" (VStage l3) in
  let self := setattr self "layer4" (VStage l4) in
  let backbone_output_maps := 2048 in
  let out_merge_all := 256 in
  try head := PyConvHead_init backbone_output_maps out_merge_all BatchNorm in
  let self := setattr self "pyconvhead" (VPyConvHead head) in
  try a1 := Conv2d_init 1024 256 3 1 1 1 1 false in
  try d1 := Dropout2d_init dropout in
  try a2 := Conv2d_init 256 classes 1 1 0 1 1 true in
  let self := setattr self "aux"
                (VSequential [LConv2d a1; BatchNorm 256; LReLU; d1; LConv2d a2]) in
  try d2 := Dropout2d_init dropout in
  try c := Conv2d_init out_merge_all classes 1 1 0 1 1 true in
  let self := setattr self "cls" (VSequential [d2; LConv2d c]) in
  Ok self.

End Construction.

(** The five backbone stages applied one after the other, as [forward]
    does, keeping the output of stage 3 next to the final one. *)
Definition backbone_run (l0 l1 l2 l3 l4 : Stage) (training : bool) (x : Size4)
  : result (Size4 * Size4) :=
  try x := l0 training x in
  try x := l1 training x in
  try x := l2 training x in
  try out_stage3 := l3 training x in
  try x := l4 training out_stage3 in
  Ok (out_stage3, x).

(** Modelled from the spec: the backbone provider [build_backbone_layers]
    of [model/build_backbone_layers.py] is not part of this module; the
    spec describes it as returning exactly five sequential stages whose
    composition maps an image to a 2048-channel feature map, downsampled
    by the output stride, the third stage feeding the 1024-channel
    auxiliary head.  [reference_stage] changes the channel count and
    divides the resolution by [down]. *)
Definition reference_stage (in_ch out_ch : Z) (down : Z) : Stage :=
  fun _ x =>
    if negb (channels x =? in_ch)
    then Err (RuntimeError "input channels do not match the weight")
    else Ok (mkSize4 (batch x) out_ch
                     ((height x - 1) / down + 1) ((width x - 1) / down + 1)).

(** Modelled from the spec: the provider itself, which ignores its
    arguments here and returns the five stages of a residual network with
    output stride 8: 64, 256, 512, 1024 and 2048 channels, the first three
    stages halving the resolution. *)
Definition reference_backbone (backbone_net : string) (layers : Z)
    (pretrained : bool) (backbone_output_stride : Z) (convert_bn : NormFamily)
  : result (Stage * Stage * Stage * Stage * Stage) :=
  Ok (reference_stage 3 64 2,
      reference_stage 64 256 2,
      reference_stage 256 512 2,
      reference_stage 512 1024 1,
      reference_stage 1024 2048 1).

(** Modelled from the spec: a backbone provider as above, except that
    its last stage yields 1024 channels, not 2048; it exercises the head
    on a backbone of another width. *)
Definition narrow_backbone (backbone_net : string) (layers : Z)
    (pretrained : bool) (backbone_output_stride : Z) (convert_bn : NormFamily)
  : result (Stage * Stage * Stage * Stage * Stage) :=
  Ok (reference_stage 3 64 2,
      reference_stage 64 256 2,
      reference_stage 256 512 2,
      reference_stage 512 1024 1,
      reference_stage 1024 1024 1).

(** * Vocabulary of the statements *)

(** A level that keeps the spatial size of its input: some output
    channel, stride 1, dilation 1, an odd kernel and padding
    [kernel // 2]. *)
Definition same_size_level (in_ch : Z) (c : Conv2d) : Prop :=
  in_channels c = in_ch /\ 0 < out_channels c /\ stride c = 1 /\ dilation c = 1
  /\ 0 < kernel_size c /\ kernel_size c mod 2 = 1
  /\ padding c = kernel_size c / 2.

(** The output of such a level on [x]. *)
Definition level_output (x : Size4) (c : Conv2d) : Size4 :=
  mkSize4 (batch x) (out_channels c) (height x) (width x).

(** What [nn.Conv2d] asks of a level: a positive group count dividing
    both channel counts, none of them negative. *)
Definition admissible_level (in_ch o g : Z) : Prop :=
  0 < g /\ in_ch mod g = 0 /\ o mod g = 0 /\ 0 <= in_ch /\ 0 <= o.

(** [nn.BatchNorm2d] accepts the input: evaluation mode, or more than one
    value per channel. *)
Definition bn_ok (training : bool) (x : Size4) : Prop :=
  training = false \/ batch x * height x * width x <> 1.

(** The submodules and settings that [__init__] stores on the object. *)
Record wired (self : gmap string pyval) (zf : Z) (crit : Criterion)
    (l0 l1 l2 l3 l4 : Stage) (head : PyConvHead) (aux cls : list layer) : Prop :=
  mkWired {
    w_zoom_factor : self !! "zoom_factor" = Some (VInt zf);
    w_criterion : self !! "criterion" = Some (VCriterion crit);
    w_layer0 : self !! "layer0" = Some (VStage l0);
    w_layer1 : self !! "layer1" = Some (VStage l1);
    w_layer2 : self !! "layer2" = Some (VStage l2);
    w_layer3 : self !! "layer3" = Some (VStage l3);
    w_layer4 : self !! "layer4" = Some (VStage l4);
    w_pyconvhead : self !! "pyconvhead" = Some (VPyConvHead head);
    w_aux : self !! "aux" = Some (VSequential aux);
    w_cls : self !! "cls" = Some (VSequential cls)
  }.

(** The logits at the end of the part of [forward] common to both modes:
    upsampled to the target size unless the zoom factor is 1.  [x] is the
    input and [x4] the output of the last backbone stage. *)
Definition forward_logits (zf classes : Z) (x x4 : Size4) : Size4 :=
  if zf =? 1 then mkSize4 (batch x4) classes (height x4) (width x4)
  else mkSize4 (batch x4) classes
               (target_dim (height x) zf) (target_dim (width x) zf).

(** The primitive layers that a layer of an [nn.Sequential] executes
    when it returns; a [PyConv4] runs its four levels, then [torch.cat]. *)
Definition layer_log (l : layer) : list string :=
  match l with
  | LConv2d _ => ["Conv2d"]
  | LBatchNorm2d _ => ["BatchNorm2d"]
  | LReLU => ["ReLU"]
  | LDropout2d _ => ["Dropout2d"]
  | LAdaptiveAvgPool2d _ => ["AdaptiveAvgPool2d"]
  | LPyConv4 _ => ["Conv2d"; "Conv2d"; "Conv2d"; "Conv2d"; "cat"]
  end.

(** The primitive layers of the three blocks of a [PyConvHead], in the
    order of their [nn.Sequential]s, and of the head: local context,
    global context, fusion. *)
Definition local_log : list string :=
  ["Conv2d"; "BatchNorm2d"; "ReLU";
   "Conv2d"; "Conv2d"; "Conv2d"; "Conv2d"; "cat"; "BatchNorm2d"; "ReLU";
   "Conv2d"; "BatchNorm2d"; "ReLU"].

Definition global_log : list string :=
  ["AdaptiveAvgPool2d"; "Conv2d"; "BatchNorm2d"; "ReLU";
   "Conv2d"; "Conv2d"; "Conv2d"; "Conv2d"; "cat"; "BatchNorm2d"; "ReLU";
   "Conv2d"; "BatchNorm2d"; "ReLU"; "interpolate"].

Definition merge_log : list string := ["cat"; "Conv2d"; "BatchNorm2d"; "ReLU"].

Definition head_log : list string := local_log ++ global_log ++ merge_log.

(** The layers executed by the part of [forward] common to both modes:
    the five backbone stages, the head, the classifier, and the
    interpolation unless the zoom factor is 1. *)
Definition forward_log (zf : Z) : list string :=
  ["layer0"; "layer1"; "layer2"; "layer3"; "layer4"] ++ head_log
  ++ ["Dropout2d"; "Conv2d"] ++ (if zf =? 1 then [] else ["interpolate"]).

(** [PyConvSegNet(layers=50, dropout=0.1, classes=150, zoom_factor=...,
    pretrained=True, backbone_output_stride=8, backbone_net='resnet')]. *)
Definition reference_init (zoom_factor : Z) : result (gmap string pyval) :=
  PyConvSegNet_init reference_backbone 50 (1 # 10) 150 zoom_factor
    (CrossEntropyLoss 255) BatchNorm2d true 8 "resnet".

Definition reference_model (zoom_factor : Z) : gmap string pyval :=
  match reference_init zoom_factor with
  | Ok self => self
  | Err _ => Module_init
  end.

(** * Properties *)

(** Linear arithmetic with division and remainder by constants. *)
Ltac dlia := Z.to_euclidean_division_equations; lia.

(** ** The forward monad *)

Lemma outcome_bind {A B : Type} (m : M A) (k : A -> M B) :
  outcome (bind m k) = rbind (outcome m) (fun a => outcome (k a)).
Proof.
  destruct m as [[a | e] t]; simpl; [| reflexivity].
  destruct (k a); reflexivity.
Qed.

Lemma outcome_bind_ok {A B : Type} (m : M A) (k : A -> M B) (a : A) :
  outcome m = Ok a -> outcome (bind m k) = outcome (k a).
Proof. intros H. rewrite outcome_bind, H. reflexivity. Qed.

Lemma outcome_bind_err {A B : Type} (m : M A) (k : A -> M B) (e : exn) :
  outcome m = Err e -> outcome (bind m k) = Err e.
Proof. intros H. rewrite outcome_bind, H. reflexivity. Qed.

Lemma executed_bind_ok {A B : Type} (m : M A) (k : A -> M B) (a : A) :
  outcome m = Ok a -> executed (bind m k) = executed m ++ executed (k a).
Proof.
  destruct m as [r t]; simpl; intros ->. destruct (k a); reflexivity.
Qed.

Lemma executed_bind_prefix {A B : Type} (m : M A) (k : A -> M B) :
  exists rest, executed (bind m k) = executed m ++ rest.
Proof.
  destruct m as [[a | e] t]; simpl.
  - destruct (k a) as [r t2]. exists t2. reflexivity.
  - exists []. symmetry. apply app_nil_r.
Qed.

Lemma outcome_bind_Ok_inv {A B : Type} (m : M A) (k : A -> M B) (b : B) :
  outcome (bind m k) = Ok b -> exists a, outcome m = Ok a /\ outcome (k a) = Ok b.
Proof.
  rewrite outcome_bind. destruct (outcome m) as [a |]; simpl; [| discriminate].
  intros H. exists a. split; [reflexivity | exact H].
Qed.

Lemma executed_bind_Ok_inv {A B : Type} (m : M A) (k : A -> M B) (b : B) :
  outcome (bind m k) = Ok b ->
  exists a, outcome m = Ok a /\ outcome (k a) = Ok b
            /\ executed (bind m k) = executed m ++ executed (k a).
Proof.
  intros H. destruct (outcome_bind_Ok_inv _ _ _ H) as (a & Ha & Hk).
  exists a. split; [exact Ha |]. split; [exact Hk |].
  apply executed_bind_ok. exact Ha.
Qed.

Lemma outcome_tick_then {A : Type} (name : string) (m : M A) :
  outcome (tick name >> m) = outcome m.
Proof. unfold tick, bind. destruct m; reflexivity. Qed.

Lemma outcome_lift {A : Type} (r : result A) : outcome (lift r) = r.
Proof. reflexivity. Qed.

(** ** Convolutions *)

Lemma Conv2d_init_Ok in_ch out_ch kernel strd pad dil grp b c :
  Conv2d_init in_ch out_ch kernel strd pad dil grp b = Ok c <->
  (0 < grp /\ in_ch mod grp = 0 /\ out_ch mod grp = 0 /\ 0 <= in_ch /\ 0 <= out_ch)
  /\ c = mkConv2d in_ch out_ch kernel strd pad dil grp b.
Proof.
  unfold Conv2d_init.
  destruct (Z.leb_spec grp 0); [split; [discriminate | lia] |].
  destruct (Z.eqb_spec (in_ch mod grp) 0); simpl; [| split; [discriminate | lia]].
  destruct (Z.eqb_spec (out_ch mod grp) 0); simpl; [| split; [discriminate | lia]].
  destruct (Z.ltb_spec in_ch 0); simpl; [split; [discriminate | lia] |].
  destruct (Z.ltb_spec out_ch 0); simpl; [split; [discriminate | lia] |].
  split.
  - intros [= <-]. repeat split; assumption.
  - intros [_ ->]. reflexivity.
Qed.

(** A failed [nn.Conv2d] construction raises [ValueError] or, for a
    negative channel count, [RuntimeError]. *)
Lemma Conv2d_init_Err in_ch out_ch kernel strd pad dil grp b e :
  Conv2d_init in_ch out_ch kernel strd pad dil grp b = Err e ->
  (exists msg, e = ValueError msg) \/ (exists msg, e = RuntimeError msg).
Proof.
  unfold Conv2d_init.
  repeat match goal with
         | |- context [if ?c then _ else _] => destruct c
         end; intros [= <-]; eauto.
Qed.

(** With dilation 1, an odd kernel and padding [kernel // 2] the output
    extent depends on the stride only. *)
Lemma Conv2d_shape_odd_kernel (c : Conv2d) (x : Size4) :
  channels x = in_channels c -> 0 < channels x -> 0 < out_channels c ->
  0 < stride c -> dilation c = 1 ->
  0 < kernel_size c -> kernel_size c mod 2 = 1 ->
  padding c = kernel_size c / 2 ->
  0 < height x -> 0 < width x ->
  Conv2d_shape c x =
  Ok (mkSize4 (batch x) (out_channels c)
              ((height x - 1) / stride c + 1) ((width x - 1) / stride c + 1)).
Proof.
  intros Hc Hc0 Ho Hs Hd Hk Hodd Hp Hh Hw. unfold Conv2d_shape, conv_out.
  destruct (Z.eqb_spec (channels x) (in_channels c)) as [_ |]; [| contradiction].
  destruct (Z.eqb_spec (channels x) 0); [lia |].
  destruct (Z.leb_spec (out_channels c) 0); [lia |].
  simpl. rewrite Hd, Hp.
  destruct (Z.leb_spec (stride c) 0); [lia |].
  destruct (Z.leb_spec 1 0); [lia |].
  destruct (Z.ltb_spec (kernel_size c / 2) 0); [dlia |].
  destruct (Z.leb_spec (kernel_size c) 0); [lia |]. simpl.
  destruct (Z.ltb_spec (height x + 2 * (kernel_size c / 2)) (1 * (kernel_size c - 1) + 1));
    [dlia |].
  destruct (Z.ltb_spec (width x + 2 * (kernel_size c / 2)) (1 * (kernel_size c - 1) + 1));
    [dlia |]. simpl.
  replace (height x + 2 * (kernel_size c / 2) - 1 * (kernel_size c - 1) - 1)
    with (height x - 1) by dlia.
  replace (width x + 2 * (kernel_size c / 2) - 1 * (kernel_size c - 1) - 1)
    with (width x - 1) by dlia.
  reflexivity.
Qed.

Lemma Conv2d_shape_same_padding (c : Conv2d) (x : Size4) :
  channels x = in_channels c -> 0 < channels x -> 0 < out_channels c ->
  stride c = 1 -> dilation c = 1 ->
  0 < kernel_size c -> kernel_size c mod 2 = 1 ->
  padding c = kernel_size c / 2 ->
  0 < height x -> 0 < width x ->
  Conv2d_shape c x = Ok (mkSize4 (batch x) (out_channels c) (height x) (width x)).
Proof.
  intros Hc Hc0 Ho Hs Hd Hk Hodd Hp Hh Hw.
  rewrite Conv2d_shape_odd_kernel by (try assumption; lia).
  rewrite Hs, !Z.div_1_r. f_equal. f_equal; lia.
Qed.

Lemma Conv2d_forward_outcome (c : Conv2d) (x : Size4) :
  outcome (Conv2d_forward c x) = Conv2d_shape c x.
Proof. unfold Conv2d_forward. rewrite outcome_tick_then. reflexivity. Qed.

Lemma Conv2d_init_ok in_ch out_ch kernel strd pad dil grp b :
  0 < grp -> in_ch mod grp = 0 -> out_ch mod grp = 0 -> 0 <= in_ch -> 0 <= out_ch ->
  Conv2d_init in_ch out_ch kernel strd pad dil grp b =
  Ok (mkConv2d in_ch out_ch kernel strd pad dil grp b).
Proof. intros. apply Conv2d_init_Ok. repeat split; assumption. Qed.

(** One step of a forward pass whose outcome is known. *)
Ltac step_with tac := erewrite outcome_bind_ok; [| tac].

(** ** PyConv4 *)

(** The block that [PyConv4] builds from its default kernels and groups. *)
Lemma PyConv4_init_default_Ok inplans planes strd m :
  PyConv4_init inplans planes default_pyconv_kernels strd default_pyconv_groups = Ok m
  <->
  (inplans mod 16 = 0 /\ (planes / 4) mod 16 = 0 /\ 0 <= inplans /\ 0 <= planes / 4)
  /\ m = mkPyConv4 (mkConv2d inplans (planes / 4) 3 strd 1 1 1 false)
                   (mkConv2d inplans (planes / 4) 5 strd 2 1 4 false)
                   (mkConv2d inplans (planes / 4) 7 strd 3 1 8 false)
                   (mkConv2d inplans (planes / 4) 9 strd 4 1 16 false).
Proof.
  unfold PyConv4_init, default_pyconv_kernels, default_pyconv_groups. simpl.
  change (3 / 2) with 1. change (5 / 2) with 2.
  change (7 / 2) with 3. change (9 / 2) with 4.
  split.
  - destruct (Conv2d_init inplans (planes / 4) 3 strd 1 1 1 false) as [c1 | e] eqn:E1;
      [| discriminate].
    destruct (Conv2d_init inplans (planes / 4) 5 strd 2 1 4 false) as [c2 | e] eqn:E2;
      [| discriminate].
    destruct (Conv2d_init inplans (planes / 4) 7 strd 3 1 8 false) as [c3 | e] eqn:E3;
      [| discriminate].
    destruct (Conv2d_init inplans (planes / 4) 9 strd 4 1 16 false) as [c4 | e] eqn:E4;
      [| discriminate].
    simpl. intros [= <-].
    apply Conv2d_init_Ok in E1 as [_ ->]. apply Conv2d_init_Ok in E2 as [_ ->].
    apply Conv2d_init_Ok in E3 as [_ ->]. apply Conv2d_init_Ok in E4 as [H ->].
    split; [| reflexivity]. tauto.
  - intros [(Hi & Hq & Hi0 & Hq0) ->].
    rewrite !Conv2d_init_ok by (try assumption; try lia; dlia).
    reflexivity.
Qed.

Lemma PyConv4_init_default_Err inplans planes strd e :
  PyConv4_init inplans planes default_pyconv_kernels strd default_pyconv_groups = Err e ->
  (exists msg, e = ValueError msg) \/ (exists msg, e = RuntimeError msg).
Proof.
  unfold PyConv4_init, default_pyconv_kernels, default_pyconv_groups. simpl.
  repeat match goal with
         | |- context [rbind (Conv2d_init ?a ?b ?c ?d ?p ?q ?g ?f) _] =>
             let E := fresh "E" in
             destruct (Conv2d_init a b c d p q g f) eqn:E; simpl;
             [| intros [= <-]; eapply Conv2d_init_Err; eassumption]
         end.
  discriminate.
Qed.

(** The levels of a [PyConv4] built from lists of the caller's choice. *)
Lemma PyConv4_init_iff inplans planes (ks : list Z) strd (gs : list Z) m :
  PyConv4_init inplans planes ks strd gs = Ok m
  <->
  exists k0 k1 k2 k3 g0 g1 g2 g3,
    take 4 ks = [k0; k1; k2; k3] /\ take 4 gs = [g0; g1; g2; g3]
    /\ Forall (admissible_level inplans (planes / 4)) [g0; g1; g2; g3]
    /\ m = mkPyConv4 (mkConv2d inplans (planes / 4) k0 strd (k0 / 2) 1 g0 false)
                     (mkConv2d inplans (planes / 4) k1 strd (k1 / 2) 1 g1 false)
                     (mkConv2d inplans (planes / 4) k2 strd (k2 / 2) 1 g2 false)
                     (mkConv2d inplans (planes / 4) k3 strd (k3 / 2) 1 g3 false).
Proof.
  unfold PyConv4_init, getitem. split.
  - destruct ks as [| k0 [| k1 [| k2 [| k3 ks]]]], gs as [| g0 [| g1 [| g2 [| g3 gs]]]];
      simpl;
      repeat match goal with
             | |- context [rbind (Conv2d_init ?a ?b ?c ?d ?p ?q ?g ?f) _] =>
                 let E := fresh "E" in
                 destruct (Conv2d_init a b c d p q g f) eqn:E; simpl
             end; try discriminate.
    intros [= <-].
    repeat match goal with
           | E : Conv2d_init _ _ _ _ _ _ _ _ = Ok _ |- _ =>
               apply Conv2d_init_Ok in E as [? ->]
           end.
    exists k0, k1, k2, k3, g0, g1, g2, g3.
    split; [reflexivity |]. split; [reflexivity |].
    split; [| reflexivity].
    repeat (constructor; [assumption |]). constructor.
  - intros (k0 & k1 & k2 & k3 & g0 & g1 & g2 & g3 & Hks & Hgs & Hadm & ->).
    destruct ks as [| ? [| ? [| ? [| ? ks]]]]; simpl in Hks; try discriminate.
    destruct gs as [| ? [| ? [| ? [| ? gs]]]]; simpl in Hgs; try discriminate.
    injection Hks as -> -> -> ->. injection Hgs as -> -> -> ->. simpl.
    inversion Hadm as [| ? ? (? & ? & ? & ? & ?) Hadm1]; subst.
    inversion Hadm1 as [| ? ? (? & ? & ? & ? & ?) Hadm2]; subst.
    inversion Hadm2 as [| ? ? (? & ? & ? & ? & ?) Hadm3]; subst.
    inversion Hadm3 as [| ? ? (? & ? & ? & ? & ?) _]; subst.
    rewrite !Conv2d_init_ok by assumption. reflexivity.
Qed.

(** Four levels that agree on channels and stride, with dilation 1, odd
    kernels and padding [kernel // 2]. *)
Lemma PyConv4_forward_levels (m : PyConv4) (x : Size4) (o s : Z) :
  Forall (fun c => in_channels c = channels x /\ out_channels c = o
                   /\ stride c = s /\ dilation c = 1
                   /\ 0 < kernel_size c /\ kernel_size c mod 2 = 1
                   /\ padding c = kernel_size c / 2)
         [conv2_1 m; conv2_2 m; conv2_3 m; conv2_4 m] ->
  0 < channels x -> 0 < o -> 0 < s -> 0 < height x -> 0 < width x ->
  outcome (PyConv4_forward m x)
  = Ok (mkSize4 (batch x) (4 * o) ((height x - 1) / s + 1) ((width x - 1) / s + 1)).
Proof.
  intros Hall Hc0 Ho Hs Hh Hw.
  assert (Hlevel : forall c,
             c ∈ [conv2_1 m; conv2_2 m; conv2_3 m; conv2_4 m] ->
             outcome (Conv2d_forward c x)
             = Ok (mkSize4 (batch x) o ((height x - 1) / s + 1)
                           ((width x - 1) / s + 1))).
  { intros c Hin.
    destruct (proj1 (Forall_forall _ _) Hall c Hin)
      as (Hi & Hout & Hst & Hd & Hk & Hodd & Hp).
    rewrite Conv2d_forward_outcome, Conv2d_shape_odd_kernel by (auto; lia).
    rewrite Hout, Hst. reflexivity. }
  unfold PyConv4_forward, PyConv4_forward_on, cat_forward.
  do 4 (step_with ltac:(apply Hlevel; set_solver)).
  rewrite outcome_tick_then, outcome_lift. simpl.
  unfold cat2. simpl. rewrite !Z.eqb_refl. simpl.
  rewrite !Z.eqb_refl. simpl. rewrite !Z.eqb_refl. simpl.
  f_equal. f_equal. lia.
Qed.

Lemma PyConv4_forward_default inplans planes strd m (x : Size4) :
  PyConv4_init inplans planes default_pyconv_kernels strd default_pyconv_groups = Ok m ->
  channels x = inplans -> 0 < channels x -> 0 < planes / 4 ->
  0 < strd -> 0 < height x -> 0 < width x ->
  outcome (PyConv4_forward m x) =
  Ok (mkSize4 (batch x) (4 * (planes / 4))
              ((height x - 1) / strd + 1) ((width x - 1) / strd + 1)).
Proof.
  intros Hm Hc Hc0 Hq Hs Hh Hw. apply PyConv4_init_default_Ok in Hm as [_ ->].
  apply PyConv4_forward_levels; try assumption.
  cbn [conv2_1 conv2_2 conv2_3 conv2_4].
  repeat (constructor; [cbn; repeat split; (reflexivity || lia || auto) |]).
  constructor.
Qed.

(** What the channels of a [PyConv4] output are: those of the four
    levels, one level after the other. *)
Lemma PyConv4_forward_channels (m : PyConv4) (x : list Conv2d) :
  outcome (PyConv4_forward_on produced_by cat_channels m x)
  = Ok (level_channels (conv2_1 m) ++ level_channels (conv2_2 m)
        ++ level_channels (conv2_3 m) ++ level_channels (conv2_4 m)).
Proof.
  unfold PyConv4_forward_on, produced_by, cat_channels. cbn.
  rewrite app_nil_r. reflexivity.
Qed.

(** C5 (as the code has it). The kernel sizes and group counts of
    [PyConv4] are arguments of its constructor, [3, 5, 7, 9] and
    [1, 4, 8, 16] by default.  Every [PyConv4] built with a [planes] that
    is a positive multiple of 4 has four levels that carry the first four
    kernels and groups given, each with [planes / 4] output channels,
    padding [kernel // 2], the shared stride, dilation 1 and no bias.  The
    channels of its output are those of level 1, then of level 2, 3 and 4,
    [planes] in all; with odd kernels the output of a non-empty input
    with [inplans] channels has extent [(H - 1) // stride + 1]. *)
Theorem PyConv4_four_level_pyramid inplans planes (ks : list Z) strd (gs : list Z) m :
  planes mod 4 = 0 -> 0 < planes ->
  PyConv4_init inplans planes ks strd gs = Ok m ->
  (exists k0 k1 k2 k3 g0 g1 g2 g3,
      take 4 ks = [k0; k1; k2; k3] /\ take 4 gs = [g0; g1; g2; g3]
      /\ conv2_1 m = mkConv2d inplans (planes / 4) k0 strd (k0 / 2) 1 g0 false
      /\ conv2_2 m = mkConv2d inplans (planes / 4) k1 strd (k1 / 2) 1 g1 false
      /\ conv2_3 m = mkConv2d inplans (planes / 4) k2 strd (k2 / 2) 1 g2 false
      /\ conv2_4 m = mkConv2d inplans (planes / 4) k3 strd (k3 / 2) 1 g3 false)
  /\ (ks = default_pyconv_kernels -> gs = default_pyconv_groups ->
      conv2_1 m = mkConv2d inplans (planes / 4) 3 strd (3 / 2) 1 1 false
      /\ conv2_2 m = mkConv2d inplans (planes / 4) 5 strd (5 / 2) 1 4 false
      /\ conv2_3 m = mkConv2d inplans (planes / 4) 7 strd (7 / 2) 1 8 false
      /\ conv2_4 m = mkConv2d inplans (planes / 4) 9 strd (9 / 2) 1 16 false)
  /\ (forall x' : list Conv2d,
        exists channels_out,
          outcome (PyConv4_forward_on produced_by cat_channels m x') = Ok channels_out
          /\ channels_out
             = replicate (Z.to_nat (planes / 4)) (conv2_1 m)
               ++ replicate (Z.to_nat (planes / 4)) (conv2_2 m)
               ++ replicate (Z.to_nat (planes / 4)) (conv2_3 m)
               ++ replicate (Z.to_nat (planes / 4)) (conv2_4 m)
          /\ Z.of_nat (length channels_out) = planes)
  /\ (forall x : Size4,
        Forall (fun k => 0 < k /\ k mod 2 = 1) (take 4 ks) ->
        channels x = inplans -> 0 < strd -> nonempty x ->
        outcome (PyConv4_forward m x)
        = Ok (mkSize4 (batch x) planes
                      ((height x - 1) / strd + 1) ((width x - 1) / strd + 1))).
Proof.
  intros H4 Hpos Hm.
  apply PyConv4_init_iff in Hm
    as (k0 & k1 & k2 & k3 & g0 & g1 & g2 & g3 & Hks & Hgs & Hadm & ->).
  cbn [conv2_1 conv2_2 conv2_3 conv2_4].
  split; [exists k0, k1, k2, k3, g0, g1, g2, g3; repeat split; assumption |].
  split.
  { intros -> ->. injection Hks as <- <- <- <-. injection Hgs as <- <- <- <-.
    repeat split. }
  split.
  { intros x'. eexists. split; [apply PyConv4_forward_channels |].
    unfold level_channels. cbn [conv2_1 conv2_2 conv2_3 conv2_4 out_channels].
    split; [reflexivity |].
    rewrite !length_app, !length_replicate. dlia. }
  intros x Hodd Hc Hs (Hb & Hc0 & Hh & Hw).
  rewrite Hks in Hodd.
  rewrite (PyConv4_forward_levels _ x (planes / 4) strd); try assumption; try dlia.
  - f_equal. f_equal. dlia.
  - cbn [conv2_1 conv2_2 conv2_3 conv2_4].
    inversion Hodd as [| ? ? [? ?] Hodd1]; subst.
    inversion Hodd1 as [| ? ? [? ?] Hodd2]; subst.
    inversion Hodd2 as [| ? ? [? ?] Hodd3]; subst.
    inversion Hodd3 as [| ? ? [? ?] _]; subst.
    repeat (constructor; [cbn; repeat split; (reflexivity || assumption || auto) |]).
    constructor.
Qed.

Lemma PyConv4_four_level_pyramid_witness :
  exists m,
    PyConv4_init 512 512 default_pyconv_kernels 1 default_pyconv_groups = Ok m
    /\ conv2_4 m = mkConv2d 512 128 9 1 4 1 16 false
    /\ outcome (PyConv4_forward m (mkSize4 1 512 9 9)) = Ok (mkSize4 1 512 9 9).
Proof.
  eexists. split; [reflexivity |].
  destruct (PyConv4_four_level_pyramid 512 512 default_pyconv_kernels 1
              default_pyconv_groups _ eq_refl ltac:(lia) eq_refl)
    as (_ & Hdefault & _ & Hfw).
  destruct (Hdefault eq_refl eq_refl) as (_ & _ & _ & H4).
  split; [exact H4 |].
  apply (Hfw (mkSize4 1 512 9 9)).
  - repeat (constructor; [split; [lia | reflexivity] |]). constructor.
  - reflexivity.
  - lia.
  - unfold nonempty. simpl. lia.
Defined.

(** Two constructions with a [planes] that 4 divides which are not the
    pyramid of kernels 3, 5, 7, 9 with [planes] output channels: one built
    with kernels and groups of the caller's choice, and one with
    [planes = 0], which is built and whose forward pass raises. *)
Lemma PyConv4_not_always_the_default_pyramid :
  (64 mod 4 = 0
   /\ exists m,
       PyConv4_init 64 64 [3; 3; 3; 3] 1 [1; 1; 1; 1] = Ok m
       /\ map kernel_size [conv2_1 m; conv2_2 m; conv2_3 m; conv2_4 m] = [3; 3; 3; 3]
       /\ map groups [conv2_1 m; conv2_2 m; conv2_3 m; conv2_4 m] = [1; 1; 1; 1])
  /\ (0 mod 4 = 0
      /\ exists m msg,
          PyConv4_init 64 0 default_pyconv_kernels 1 default_pyconv_groups = Ok m
          /\ outcome (PyConv4_forward m (mkSize4 1 64 8 8)) = Err (RuntimeError msg)).
Proof.
  split.
  - split; [reflexivity |]. eexists. split; [reflexivity |]. split; reflexivity.
  - split; [reflexivity |]. do 2 eexists. split; reflexivity.
Qed.

(** C6 (as the code has it). [PyConv4] has no check of [planes] against
    4: every level gets [planes // 4] output channels, rounded down.  With
    the default groups the construction succeeds exactly when [inplans]
    and [planes // 4] are non-negative multiples of 16, and otherwise
    fails inside [nn.Conv2d] with a [ValueError] or [RuntimeError]. *)
Theorem PyConv4_init_checks_groups_only inplans planes strd :
  ((inplans mod 16 = 0 /\ (planes / 4) mod 16 = 0
    /\ 0 <= inplans /\ 0 <= planes / 4) /\
   PyConv4_init inplans planes default_pyconv_kernels strd default_pyconv_groups =
   Ok (mkPyConv4 (mkConv2d inplans (planes / 4) 3 strd 1 1 1 false)
                 (mkConv2d inplans (planes / 4) 5 strd 2 1 4 false)
                 (mkConv2d inplans (planes / 4) 7 strd 3 1 8 false)
                 (mkConv2d inplans (planes / 4) 9 strd 4 1 16 false)))
  \/
  (~ (inplans mod 16 = 0 /\ (planes / 4) mod 16 = 0
      /\ 0 <= inplans /\ 0 <= planes / 4) /\
   exists msg,
     PyConv4_init inplans planes default_pyconv_kernels strd default_pyconv_groups =
     Err (ValueError msg)
     \/ PyConv4_init inplans planes default_pyconv_kernels strd default_pyconv_groups =
        Err (RuntimeError msg)).
Proof.
  destruct (PyConv4_init inplans planes default_pyconv_kernels strd
                         default_pyconv_groups) as [m | e] eqn:E.
  - left. apply PyConv4_init_default_Ok in E as [Hok ->]. split; [exact Hok | reflexivity].
  - right. split.
    + intros Hok.
      assert (PyConv4_init inplans planes default_pyconv_kernels strd
                           default_pyconv_groups =
              Ok (mkPyConv4 (mkConv2d inplans (planes / 4) 3 strd 1 1 1 false)
                            (mkConv2d inplans (planes / 4) 5 strd 2 1 4 false)
                            (mkConv2d inplans (planes / 4) 7 strd 3 1 8 false)
                            (mkConv2d inplans (planes / 4) 9 strd 4 1 16 false))) as E'
        by (apply PyConv4_init_default_Ok; split; [exact Hok | reflexivity]).
      congruence.
    + destruct (PyConv4_init_default_Err _ _ _ _ E) as [[msg ->] | [msg ->]];
        exists msg; [left | right]; reflexivity.
Qed.

(** [PyConv4(64, 66)] is built although 4 does not divide 66: every level
    gets 16 channels and the block outputs 64 channels, not 66. *)
Lemma PyConv4_planes_66_is_built :
  66 mod 4 <> 0
  /\ exists m,
      PyConv4_init 64 66 default_pyconv_kernels 1 default_pyconv_groups = Ok m
      /\ out_channels (conv2_1 m) = 16 /\ out_channels (conv2_2 m) = 16
      /\ out_channels (conv2_3 m) = 16 /\ out_channels (conv2_4 m) = 16
      /\ outcome (PyConv4_forward m (mkSize4 1 64 8 8)) = Ok (mkSize4 1 64 8 8).
Proof.
  split; [discriminate |].
  eexists. split; [reflexivity |]. repeat split.
Qed.

(** ** PyConv2d *)

Lemma rmap_Forall2 {A B : Type} (f : A -> result B) (l : list A) (bs : list B) :
  rmap f l = Ok bs -> Forall2 (fun a b => f a = Ok b) l bs.
Proof.
  revert bs. induction l as [| a l IH]; simpl; intros bs.
  - intros [= <-]. constructor.
  - destruct (f a) as [b |] eqn:Ea; simpl; [| discriminate].
    destruct (rmap f l) as [bs' |]; simpl; [| discriminate].
    intros [= <-]. constructor; [exact Ea | apply IH; reflexivity].
Qed.

(** The levels that the constructor builds, read back by position. *)
Lemma PyConv2d_init_levels in_ch (outs ks gs : list Z) strd dil b m :
  PyConv2d_init in_ch outs ks gs strd dil b = Ok m ->
  length outs = length ks /\ length ks = length gs
  /\ length (pyconv_levels m) = length ks
  /\ forall (i : nat) (c : Conv2d),
      pyconv_levels m !! i = Some c ->
      exists o k g,
        outs !! i = Some o /\ ks !! i = Some k /\ gs !! i = Some g
        /\ 0 < g /\ in_ch mod g = 0 /\ o mod g = 0
        /\ c = mkConv2d in_ch o k strd (k / 2) dil g b.
Proof.
  unfold PyConv2d_init.
  destruct (Nat.eqb_spec (length outs) (length ks)) as [Hok |]; [| discriminate].
  destruct (Nat.eqb_spec (length ks) (length gs)) as [Hkg |]; [| discriminate].
  simpl.
  match goal with
  | |- context [rmap ?f ?l] => destruct (rmap f l) as [levels |] eqn:E
  end; simpl; [| discriminate].
  intros [= <-]. simpl. apply rmap_Forall2 in E.
  pose proof (Forall2_length _ _ _ E) as Hlen. rewrite length_seq in Hlen.
  repeat split; try congruence.
  intros i c Hi.
  destruct (Forall2_lookup_r _ _ _ _ _ E Hi) as (j & Hj & Hc).
  apply lookup_seq in Hj as [-> Hlt]. simpl in Hc.
  unfold getitem in Hc.
  destruct (outs !! i) as [o |] eqn:Eo; simpl in Hc; [| discriminate].
  destruct (ks !! i) as [k |] eqn:Ek; simpl in Hc; [| discriminate].
  destruct (gs !! i) as [g |] eqn:Eg; simpl in Hc; [| discriminate].
  apply Conv2d_init_Ok in Hc as [(Hg & Hig & Hog & _) ->].
  exists o, k, g. repeat split; assumption.
Qed.

Lemma PyConv2d_init_out_channels in_ch (outs ks gs : list Z) strd dil b m :
  PyConv2d_init in_ch outs ks gs strd dil b = Ok m ->
  map out_channels (pyconv_levels m) = outs
  /\ map padding (pyconv_levels m) = map (fun k => k / 2) ks.
Proof.
  intros Hm. destruct (PyConv2d_init_levels _ _ _ _ _ _ _ _ Hm) as (Hok & Hkg & Hlen & Hlv).
  split; apply list_eq; intros i; rewrite !list_lookup_fmap.
  - destruct (pyconv_levels m !! i) as [c |] eqn:Ei; simpl.
    + destruct (Hlv i c Ei) as (o & k & g & Ho & _ & _ & _ & _ & _ & ->).
      simpl. symmetry. exact Ho.
    + symmetry. apply lookup_ge_None. apply lookup_ge_None in Ei. lia.
  - destruct (pyconv_levels m !! i) as [c |] eqn:Ei; simpl.
    + destruct (Hlv i c Ei) as (o & k & g & _ & Hk & _ & _ & _ & _ & ->).
      simpl. rewrite Hk. reflexivity.
    + apply lookup_ge_None in Ei. rewrite (proj2 (lookup_ge_None ks i)) by lia.
      reflexivity.
Qed.

Lemma mmap_levels_outcome (x : Size4) (levels : list Conv2d) :
  Forall (same_size_level (channels x)) levels ->
  0 < channels x -> 0 < height x -> 0 < width x ->
  outcome (mmap (fun level => Conv2d_forward level x) levels)
  = Ok (map (level_output x) levels).
Proof.
  intros Hall Hc0 Hh Hw. induction Hall as [| c levels Hc _ IH]; [reflexivity |].
  destruct Hc as (Hin & Ho & Hs & Hd & Hk & Hodd & Hp). cbn [mmap map].
  step_with ltac:(rewrite Conv2d_forward_outcome;
                  apply Conv2d_shape_same_padding; auto).
  step_with ltac:(exact IH). reflexivity.
Qed.

Lemma PyConv2d_init_kernels_groups in_ch (outs ks gs : list Z) strd dil b m :
  PyConv2d_init in_ch outs ks gs strd dil b = Ok m ->
  map kernel_size (pyconv_levels m) = ks /\ map groups (pyconv_levels m) = gs.
Proof.
  intros Hm. destruct (PyConv2d_init_levels _ _ _ _ _ _ _ _ Hm) as (Hok & Hkg & Hlen & Hlv).
  split; apply list_eq; intros i; rewrite !list_lookup_fmap;
    destruct (pyconv_levels m !! i) as [c |] eqn:Ei; simpl.
  - destruct (Hlv i c Ei) as (o & k & g & _ & Hk & _ & _ & _ & _ & ->).
    simpl. symmetry. exact Hk.
  - symmetry. apply lookup_ge_None. apply lookup_ge_None in Ei. lia.
  - destruct (Hlv i c Ei) as (o & k & g & _ & _ & Hg & _ & _ & _ & ->).
    simpl. symmetry. exact Hg.
  - symmetry. apply lookup_ge_None. apply lookup_ge_None in Ei. lia.
Qed.

(** What the channels of a [PyConv2d] output are: those of the levels,
    in the order of the list. *)
Lemma PyConv2d_forward_channels (m : PyConv2d) (x : list Conv2d) :
  pyconv_levels m <> [] ->
  outcome (PyConv2d_forward_on produced_by cat_channels m x)
  = Ok (concat (map level_channels (pyconv_levels m))).
Proof.
  intros Hne. unfold PyConv2d_forward_on.
  assert (Hmap : forall levels,
             outcome (mmap (fun level => produced_by level x) levels)
             = Ok (map level_channels levels)).
  { induction levels as [| c levels IH]; [reflexivity |]. cbn [mmap map].
    step_with ltac:(unfold produced_by; rewrite outcome_tick_then; reflexivity).
    step_with ltac:(exact IH). reflexivity. }
  step_with ltac:(apply Hmap).
  unfold cat_channels. rewrite outcome_tick_then.
  destruct (pyconv_levels m); [contradiction | reflexivity].
Qed.

Lemma cat_from_level_outputs (x : Size4) (n : Z) (levels : list Conv2d) :
  cat_from (mkSize4 (batch x) n (height x) (width x)) (map (level_output x) levels)
  = Ok (mkSize4 (batch x) (n + Zsum (map out_channels levels)) (height x) (width x)).
Proof.
  revert n. induction levels as [| c levels IH]; intros n; simpl.
  - f_equal. f_equal. lia.
  - unfold cat2. simpl. rewrite !Z.eqb_refl. simpl.
    rewrite IH. f_equal. f_equal. lia.
Qed.

(** C7 (as the code has it). A [PyConv2d] built with stride 1 and dilation
    1 from at least one level, with odd kernels and at least one output
    channel in every level, on a non-empty input with [in_ch] channels:
    the levels carry the kernels, groups and channel counts of the lists,
    in order, with padding [kernel // 2]; every level yields the input's
    height and width with its own channel count; the forward output is the
    concatenation of the level outputs and has [sum out_channels] channels
    at the input's height and width; its channels are those of the first
    level, then those of the second, and so on in list order. *)
Theorem PyConv2d_forward_same_size in_ch (outs ks gs : list Z) b m (x : Size4) :
  PyConv2d_init in_ch outs ks gs 1 1 b = Ok m ->
  outs <> [] -> 0 < in_ch -> Forall (fun o => 0 < o) outs ->
  Forall (fun k => 0 < k /\ k mod 2 = 1) ks ->
  channels x = in_ch -> 0 < height x -> 0 < width x ->
  (map out_channels (pyconv_levels m) = outs
   /\ map kernel_size (pyconv_levels m) = ks
   /\ map groups (pyconv_levels m) = gs
   /\ map padding (pyconv_levels m) = map (fun k => k / 2) ks)
  /\ (exists ys : list Size4,
        Forall2 (fun c y => Conv2d_shape c x = Ok y) (pyconv_levels m) ys
        /\ map channels ys = outs
        /\ outcome (PyConv2d_forward m x) = cat ys
        /\ cat ys = Ok (mkSize4 (batch x) (Zsum outs) (height x) (width x)))
  /\ (forall x' : list Conv2d,
        outcome (PyConv2d_forward_on produced_by cat_channels m x')
        = Ok (concat (map (fun c => replicate (Z.to_nat (out_channels c)) c)
                          (pyconv_levels m)))).
Proof.
  intros Hm Hne Hin Houts_pos Hks Hc Hh Hw.
  destruct (PyConv2d_init_out_channels _ _ _ _ _ _ _ _ Hm) as [Houts Hpad].
  destruct (PyConv2d_init_kernels_groups _ _ _ _ _ _ _ _ Hm) as [Hkern Hgrp].
  destruct (PyConv2d_init_levels _ _ _ _ _ _ _ _ Hm) as (Hok & Hkg & Hlen & Hlv).
  assert (Hall : Forall (same_size_level (channels x)) (pyconv_levels m)).
  { apply Forall_lookup. intros i c Hi.
    destruct (Hlv i c Hi) as (o & k & g & Ho & Hk & _ & _ & _ & _ & ->).
    pose proof (proj1 (Forall_lookup _ _) Hks i k Hk) as [Hpos Hodd].
    pose proof (proj1 (Forall_lookup _ _) Houts_pos i o Ho) as Hopos.
    unfold same_size_level. simpl. repeat split; auto. }
  assert (Hlevels : pyconv_levels m <> []).
  { intros E. rewrite E in Houts. simpl in Houts. congruence. }
  split; [repeat split; assumption |].
  split; [| intros x'; apply PyConv2d_forward_channels; exact Hlevels].
  exists (map (level_output x) (pyconv_levels m)).
  assert (Hcat : cat (map (level_output x) (pyconv_levels m))
                 = Ok (mkSize4 (batch x) (Zsum outs) (height x) (width x))).
  { destruct (pyconv_levels m) as [| c levels] eqn:El.
    - contradiction.
    - simpl. unfold level_output at 1. rewrite cat_from_level_outputs.
      rewrite <- Houts. reflexivity. }
  repeat split.
  - apply Forall2_fmap_r, Forall_Forall2_diag.
    eapply Forall_impl; [exact Hall |].
    intros c (Hi & Ho & Hs & Hd & Hk & Hodd & Hp).
    apply Conv2d_shape_same_padding; auto; lia.
  - rewrite <- Houts, map_map. reflexivity.
  - unfold PyConv2d_forward, PyConv2d_forward_on, cat_forward.
    step_with ltac:(apply mmap_levels_outcome; try assumption; lia).
    rewrite outcome_tick_then. reflexivity.
  - exact Hcat.
Qed.

Lemma PyConv2d_forward_same_size_witness :
  exists m,
    PyConv2d_init 64 [16; 16; 32] [3; 5; 7] [1; 4; 8] 1 1 false = Ok m
    /\ outcome (PyConv2d_forward m (mkSize4 4 64 56 56)) = Ok (mkSize4 4 64 56 56).
Proof.
  eexists. split; [reflexivity |].
  destruct (PyConv2d_forward_same_size 64 [16; 16; 32] [3; 5; 7] [1; 4; 8] false _
              (mkSize4 4 64 56 56) eq_refl)
    as (_ & (ys & _ & _ & Hout & Hcat) & _).
  - discriminate.
  - lia.
  - repeat (constructor; [lia |]). constructor.
  - repeat (constructor; [split; [lia | reflexivity] |]). constructor.
  - reflexivity.
  - simpl; lia.
  - simpl; lia.
  - rewrite Hout, Hcat. reflexivity.
Defined.

(** With dilation 2 the same construction loses two rows and columns:
    stride 1 and an odd kernel do not suffice to keep the spatial size. *)
Lemma PyConv2d_dilation_2_shrinks :
  exists m y,
    PyConv2d_init 4 [4] [3] [1] 1 2 false = Ok m
    /\ outcome (PyConv2d_forward m (mkSize4 1 4 8 8)) = Ok y
    /\ y = mkSize4 1 4 6 6
    /\ height y <> height (mkSize4 1 4 8 8).
Proof.
  do 2 eexists. split; [reflexivity |]. split; [reflexivity |].
  split; [reflexivity | discriminate].
Qed.

(** Two more constructions outside the statement above, both built
    without complaint: without any level the forward pass fails in
    [torch.cat]; with a level of no output channel it fails in that
    level's convolution. *)
Lemma PyConv2d_degenerate_levels_fail :
  (exists m e,
      PyConv2d_init 4 [] [] [] 1 1 false = Ok m
      /\ outcome (PyConv2d_forward m (mkSize4 1 4 8 8)) = Err e)
  /\ (exists m msg,
        PyConv2d_init 4 [4; 0] [3; 3] [1; 1] 1 1 false = Ok m
        /\ outcome (PyConv2d_forward m (mkSize4 1 4 8 8)) = Err (RuntimeError msg)).
Proof. split; do 2 eexists; split; reflexivity. Qed.

(** C8. Lists of different lengths make the constructor of [PyConv2d]
    fail with an [AssertionError], before any level is built and before
    any forward call. *)
Theorem PyConv2d_init_mismatched_lengths in_ch (outs ks gs : list Z) strd dil b :
  ~ (length outs = length ks /\ length ks = length gs) ->
  PyConv2d_init in_ch outs ks gs strd dil b = Err AssertionError.
Proof.
  intros Hne. unfold PyConv2d_init.
  destruct (Nat.eqb_spec (length outs) (length ks)) as [Hok |]; [| reflexivity].
  destruct (Nat.eqb_spec (length ks) (length gs)) as [Hkg |]; [| reflexivity].
  tauto.
Qed.

Lemma PyConv2d_init_mismatched_lengths_witness :
  PyConv2d_init 64 [32; 32] [3; 5; 7] [1; 4] 1 1 false = Err AssertionError.
Proof.
  apply (PyConv2d_init_mismatched_lengths 64 [32; 32] [3; 5; 7] [1; 4] 1 1 false).
  simpl. intros [H _]. discriminate H.
Defined.

(** ** Primitive layers inside a block *)

Lemma BatchNorm2d_shape_ok n training (x : Size4) :
  channels x = n -> bn_ok training x -> BatchNorm2d_shape n training x = Ok x.
Proof.
  intros Hc Hbn. unfold BatchNorm2d_shape.
  rewrite Hc, Z.eqb_refl. simpl.
  destruct Hbn as [-> | Hne]; [reflexivity |].
  destruct (Z.eqb_spec (batch x * height x * width x) 1); [contradiction |].
  rewrite andb_false_r. reflexivity.
Qed.

Lemma AdaptiveAvgPool2d_shape_ok bins (x : Size4) :
  0 < channels x -> 0 < height x -> 0 < width x ->
  AdaptiveAvgPool2d_shape bins x = Ok (mkSize4 (batch x) (channels x) bins bins).
Proof.
  intros Hc Hh Hw. unfold AdaptiveAvgPool2d_shape.
  destruct (Z.leb_spec (channels x) 0); [lia |].
  destruct (Z.leb_spec (height x) 0); [lia |].
  destruct (Z.leb_spec (width x) 0); [lia |]. reflexivity.
Qed.

Lemma interpolate_outcome (x : Size4) (h w : Z) :
  0 < channels x -> 0 < height x -> 0 < width x -> 0 < h -> 0 < w ->
  outcome (interpolate x (h, w)) = Ok (mkSize4 (batch x) (channels x) h w).
Proof.
  intros Hc Hh Hw Hh' Hw'. unfold interpolate.
  rewrite outcome_tick_then, outcome_lift. unfold interpolate_shape. simpl.
  destruct (Z.leb_spec (channels x) 0); [lia |].
  destruct (Z.leb_spec (height x) 0); [lia |].
  destruct (Z.leb_spec (width x) 0); [lia |].
  destruct (Z.leb_spec h 0); [lia |].
  destruct (Z.leb_spec w 0); [lia |]. reflexivity.
Qed.

Lemma PyConv4_forward_stride_1 inplans planes m (x : Size4) :
  PyConv4_init inplans planes default_pyconv_kernels 1 default_pyconv_groups = Ok m ->
  channels x = inplans -> 0 < channels x -> 0 < planes -> planes mod 4 = 0 ->
  0 < height x -> 0 < width x ->
  outcome (PyConv4_forward m x) = Ok (mkSize4 (batch x) planes (height x) (width x)).
Proof.
  intros Hm Hc Hc0 Hp H4 Hh Hw.
  rewrite (PyConv4_forward_default _ _ _ _ x Hm Hc) by (try assumption; try lia; dlia).
  rewrite !Z.div_1_r. f_equal. f_equal; dlia.
Qed.

(** The steps of an [nn.Sequential] over the layers used in this file. *)
Ltac solve_side := simpl; first [assumption | reflexivity | lia | dlia].

Ltac layer_step :=
  first
    [ rewrite Conv2d_forward_outcome; apply Conv2d_shape_same_padding; solve_side
    | rewrite outcome_tick_then, outcome_lift; apply BatchNorm2d_shape_ok; solve_side
    | rewrite outcome_tick_then, outcome_lift; apply AdaptiveAvgPool2d_shape_ok; solve_side
    | rewrite outcome_tick_then; reflexivity
    | eapply PyConv4_forward_stride_1; [eassumption | solve_side ..] ].

Ltac run_sequential :=
  cbn [Sequential_forward layer_forward BatchNorm2d];
  repeat (step_with layer_step).

(** ** The context blocks and the head *)

Lemma LocalPyConvBlock_init_inv inplanes planes (BatchNorm : NormFamily) r self :
  LocalPyConvBlock_init inplanes planes BatchNorm r = Ok self ->
  exists p4,
    PyConv4_init (inplanes / r) (inplanes / r) default_pyconv_kernels 1
                 default_pyconv_groups = Ok p4
    /\ local_layers self =
       [ LConv2d (mkConv2d inplanes (inplanes / r) 1 1 0 1 1 false);
         BatchNorm (inplanes / r); LReLU;
         LPyConv4 p4;
         BatchNorm (inplanes / r); LReLU;
         LConv2d (mkConv2d (inplanes / r) planes 1 1 0 1 1 false);
         BatchNorm planes; LReLU ].
Proof.
  unfold LocalPyConvBlock_init, floordiv.
  destruct (r =? 0); simpl; [discriminate |].
  destruct (Conv2d_init inplanes (inplanes / r) 1 1 0 1 1 false) as [c1 |] eqn:E1;
    simpl; [| discriminate].
  destruct (PyConv4_init (inplanes / r) (inplanes / r) default_pyconv_kernels 1
                         default_pyconv_groups) as [p4 |] eqn:E2;
    simpl; [| discriminate].
  destruct (Conv2d_init (inplanes / r) planes 1 1 0 1 1 false) as [c2 |] eqn:E3;
    simpl; [| discriminate].
  intros [= <-]. apply Conv2d_init_Ok in E1 as [_ ->].
  apply Conv2d_init_Ok in E3 as [_ ->]. exists p4. split; reflexivity.
Qed.

Lemma LocalPyConvBlock_forward_outcome inplanes planes r training self (x : Size4) :
  LocalPyConvBlock_init inplanes planes BatchNorm2d r = Ok self ->
  channels x = inplanes -> 0 < channels x -> 0 < inplanes / r -> 0 < planes ->
  0 < height x -> 0 < width x -> bn_ok training x ->
  outcome (LocalPyConvBlock_forward training self x)
  = Ok (mkSize4 (batch x) planes (height x) (width x)).
Proof.
  intros Hinit Hc Hc0 Hq Hp Hh Hw Hbn.
  destruct (LocalPyConvBlock_init_inv _ _ _ _ _ Hinit) as (p4 & Hp4 & Hl).
  pose proof (proj1 (PyConv4_init_default_Ok _ _ _ _) Hp4) as [(H16 & _) _].
  unfold LocalPyConvBlock_forward. rewrite Hl. run_sequential.
  reflexivity.
Qed.

Lemma GlobalPyConvBlock_init_inv in_dim reduction_dim bins (BatchNorm : NormFamily) self :
  GlobalPyConvBlock_init in_dim reduction_dim bins BatchNorm = Ok self ->
  exists p4,
    PyConv4_init reduction_dim reduction_dim default_pyconv_kernels 1
                 default_pyconv_groups = Ok p4
    /\ global_features self =
       [ LAdaptiveAvgPool2d bins;
         LConv2d (mkConv2d in_dim reduction_dim 1 1 0 1 1 false);
         BatchNorm reduction_dim; LReLU;
         LPyConv4 p4;
         BatchNorm reduction_dim; LReLU;
         LConv2d (mkConv2d reduction_dim reduction_dim 1 1 0 1 1 false);
         BatchNorm reduction_dim; LReLU ].
Proof.
  unfold GlobalPyConvBlock_init.
  destruct (Conv2d_init in_dim reduction_dim 1 1 0 1 1 false) as [c1 |] eqn:E1;
    simpl; [| discriminate].
  destruct (PyConv4_init reduction_dim reduction_dim default_pyconv_kernels 1
                         default_pyconv_groups) as [p4 |] eqn:E2;
    simpl; [| discriminate].
  destruct (Conv2d_init reduction_dim reduction_dim 1 1 0 1 1 false) as [c2 |] eqn:E3;
    simpl; [| discriminate].
  intros [= <-]. apply Conv2d_init_Ok in E1 as [_ ->].
  apply Conv2d_init_Ok in E3 as [_ ->]. exists p4. split; reflexivity.
Qed.

Lemma GlobalPyConvBlock_forward_outcome in_dim reduction_dim bins training self
    (x : Size4) :
  GlobalPyConvBlock_init in_dim reduction_dim bins BatchNorm2d = Ok self ->
  channels x = in_dim -> 0 < channels x -> 0 < height x -> 0 < width x ->
  0 < reduction_dim -> 0 < bins ->
  (training = false \/ batch x * bins * bins <> 1) ->
  outcome (GlobalPyConvBlock_forward training self x)
  = Ok (mkSize4 (batch x) reduction_dim (height x) (width x)).
Proof.
  intros Hinit Hc Hc0 Hh Hw Hr Hb Hbn.
  destruct (GlobalPyConvBlock_init_inv _ _ _ _ _ Hinit) as (p4 & Hp4 & Hl).
  pose proof (proj1 (PyConv4_init_default_Ok _ _ _ _) Hp4) as [(H16 & _) _].
  assert (Hbn' : forall c, bn_ok training (mkSize4 (batch x) c bins bins))
    by (intros c; exact Hbn).
  unfold GlobalPyConvBlock_forward. rewrite Hl.
  step_with ltac:(run_sequential; reflexivity).
  apply interpolate_outcome; simpl; assumption.
Qed.

Lemma MergeLocalGlobal_forward_outcome inplanes planes training self (l g : Size4) :
  MergeLocalGlobal_init inplanes planes BatchNorm2d = Ok self ->
  batch g = batch l -> height g = height l -> width g = width l ->
  channels l + channels g = inplanes -> 0 < inplanes -> 0 < planes ->
  0 < height l -> 0 < width l -> bn_ok training l ->
  outcome (MergeLocalGlobal_forward training self l g)
  = Ok (mkSize4 (batch l) planes (height l) (width l)).
Proof.
  intros Hinit Hb Hh Hw Hc Hi0 Hp0 Hh0 Hw0 Hbn. unfold MergeLocalGlobal_init in Hinit.
  destruct (Conv2d_init inplanes planes 3 1 1 1 1 false) as [c |] eqn:E;
    simpl in Hinit; [| discriminate].
  injection Hinit as <-. apply Conv2d_init_Ok in E as [_ ->].
  unfold MergeLocalGlobal_forward.
  assert (Hcat : cat [l; g]
                 = Ok (mkSize4 (batch l) inplanes (height l) (width l))).
  { simpl. unfold cat2. rewrite Hb, Hh, Hw, !Z.eqb_refl. simpl. rewrite Hc.
    reflexivity. }
  step_with ltac:(rewrite outcome_tick_then, outcome_lift; exact Hcat).
  assert (Hbn' : forall c, bn_ok training (mkSize4 (batch l) c (height l) (width l)))
    by (intros c'; exact Hbn).
  cbn [merge_features]. run_sequential. reflexivity.
Qed.

Lemma PyConvHead_forward_outcome inplanes planes training self (x : Size4) :
  PyConvHead_init inplanes planes BatchNorm2d = Ok self ->
  channels x = inplanes -> 0 < inplanes / 4 -> 0 < planes ->
  0 < height x -> 0 < width x -> bn_ok training x ->
  outcome (PyConvHead_forward training self x)
  = Ok (mkSize4 (batch x) planes (height x) (width x)).
Proof.
  intros Hinit Hc Hq Hp Hh Hw Hbn.
  assert (Hc0 : 0 < channels x) by (rewrite Hc; dlia). unfold PyConvHead_init in Hinit.
  destruct (LocalPyConvBlock_init inplanes 512 BatchNorm2d 4) as [lc |] eqn:El;
    simpl in Hinit; [| discriminate].
  destruct (GlobalPyConvBlock_init inplanes 512 9 BatchNorm2d) as [gc |] eqn:Eg;
    simpl in Hinit; [| discriminate].
  destruct (MergeLocalGlobal_init (512 + 512) planes BatchNorm2d) as [mc |] eqn:Em;
    simpl in Hinit; [| discriminate].
  injection Hinit as <-. unfold PyConvHead_forward. simpl.
  step_with ltac:(eapply LocalPyConvBlock_forward_outcome;
                  [eassumption | try assumption; try lia ..]).
  step_with ltac:(eapply GlobalPyConvBlock_forward_outcome;
                  [eassumption | try assumption; try lia ..]).
  erewrite MergeLocalGlobal_forward_outcome; [| eassumption | try solve_side ..].
  reflexivity.
Qed.

(** C4. A [GlobalPyConvBlock] pools every input to a [bins] x [bins] grid
    (9 x 9 in the head) and interpolates back to the input's own height and
    width, whatever they are; its output has [reduction_dim] channels. *)
Theorem GlobalPyConvBlock_keeps_spatial_size in_dim reduction_dim bins training self
    (x : Size4) :
  GlobalPyConvBlock_init in_dim reduction_dim bins BatchNorm2d = Ok self ->
  channels x = in_dim -> nonempty x ->
  0 < reduction_dim -> 1 < bins ->
  exists y,
    outcome (GlobalPyConvBlock_forward training self x) = Ok y
    /\ height y = height x /\ width y = width x
    /\ channels y = reduction_dim /\ batch y = batch x.
Proof.
  intros Hinit Hc (Hb & Hc0 & Hh & Hw) Hr Hbins.
  eexists. split.
  - eapply GlobalPyConvBlock_forward_outcome; try eassumption; try lia;
      right; nia.
  - simpl. repeat split.
Qed.

Lemma GlobalPyConvBlock_keeps_spatial_size_witness :
  exists self y,
    GlobalPyConvBlock_init 2048 512 9 BatchNorm2d = Ok self
    /\ outcome (GlobalPyConvBlock_forward true self (mkSize4 1 2048 129 129)) = Ok y
    /\ height y = 129 /\ width y = 129 /\ channels y = 512.
Proof.
  eexists.
  destruct (GlobalPyConvBlock_keeps_spatial_size 2048 512 9 true _
              (mkSize4 1 2048 129 129) eq_refl eq_refl)
    as (y & Hy & Hh & Hw & Hc & _).
  - unfold nonempty; simpl; lia.
  - lia.
  - lia.
  - exists y. split; [reflexivity |]. repeat split; assumption.
Defined.

(** ** The layers executed by a returning forward pass *)

Lemma layer_forward_log training (l : layer) (x y : Size4) :
  outcome (layer_forward training l x) = Ok y ->
  executed (layer_forward training l x) = layer_log l.
Proof.
  destruct l as [c | n | | p | bins | m]; try reflexivity.
  cbn [layer_forward layer_log].
  unfold PyConv4_forward, PyConv4_forward_on, cat_forward. intros H.
  apply executed_bind_Ok_inv in H as (y1 & _ & H & ->).
  apply executed_bind_Ok_inv in H as (y2 & _ & H & ->).
  apply executed_bind_Ok_inv in H as (y3 & _ & H & ->).
  apply executed_bind_Ok_inv in H as (y4 & _ & H & ->).
  reflexivity.
Qed.

Lemma Sequential_forward_log training (ls : list layer) (x y : Size4) :
  outcome (Sequential_forward training ls x) = Ok y ->
  executed (Sequential_forward training ls x) = flat_map layer_log ls.
Proof.
  revert x. induction ls as [| l ls IH]; intros x H; [reflexivity |].
  cbn [Sequential_forward flat_map] in *.
  apply executed_bind_Ok_inv in H as (x1 & H1 & H & ->).
  rewrite (layer_forward_log _ _ _ _ H1), (IH _ H). reflexivity.
Qed.

Lemma PyConvHead_forward_log inplanes planes training head (x y : Size4) :
  PyConvHead_init inplanes planes BatchNorm2d = Ok head ->
  outcome (PyConvHead_forward training head x) = Ok y ->
  executed (PyConvHead_forward training head x) = head_log.
Proof.
  intros Hinit. unfold PyConvHead_init in Hinit.
  destruct (LocalPyConvBlock_init inplanes 512 BatchNorm2d 4) as [lc |] eqn:El;
    simpl in Hinit; [| discriminate].
  destruct (GlobalPyConvBlock_init inplanes 512 9 BatchNorm2d) as [gc |] eqn:Eg;
    simpl in Hinit; [| discriminate].
  destruct (MergeLocalGlobal_init (512 + 512) planes BatchNorm2d) as [mc |] eqn:Em;
    simpl in Hinit; [| discriminate].
  injection Hinit as <-.
  destruct (LocalPyConvBlock_init_inv _ _ _ _ _ El) as (pl & _ & Hl).
  destruct (GlobalPyConvBlock_init_inv _ _ _ _ _ Eg) as (pg & _ & Hg).
  unfold MergeLocalGlobal_init in Em.
  destruct (Conv2d_init (512 + 512) planes 3 1 1 1 1 false) as [c |];
    simpl in Em; [| discriminate].
  injection Em as <-.
  unfold PyConvHead_forward, LocalPyConvBlock_forward, GlobalPyConvBlock_forward,
    MergeLocalGlobal_forward.
  cbn [local_context global_context merge_context merge_features].
  rewrite Hl, Hg. intros H.
  apply executed_bind_Ok_inv in H as (l & Hlocal & H & ->).
  apply executed_bind_Ok_inv in H as (g & Hglobal & H & ->).
  apply executed_bind_Ok_inv in H as (m & _ & Hmerge & ->).
  apply executed_bind_Ok_inv in Hglobal as (f & Hfeat & _ & ->).
  rewrite (Sequential_forward_log _ _ _ _ Hlocal), (Sequential_forward_log _ _ _ _ Hfeat),
    (Sequential_forward_log _ _ _ _ Hmerge).
  reflexivity.
Qed.

(** ** The target size *)

(** Once the assertion of [forward] holds the true division by 8 is exact,
    and so is the conversion back to an integer. *)
Lemma target_dim_exact (d zf : Z) :
  (d - 1) mod 8 = 0 -> target_dim d zf = (d - 1) / 8 * zf + 1.
Proof.
  intros H. unfold target_dim, py_int.
  unfold Qdiv, Qmult, Qplus, Qinv, inject_Z. cbn [Qnum Qden].
  change (Z.pos (1 * 8 * 1)) with 8. change (Z.pos (1 * 8 * 1 * 1)) with 8.
  replace ((d - 1) * 1 * zf * 1 + 1 * 8) with (((d - 1) / 8 * zf + 1) * 8) by dlia.
  apply Z.quot_mul. discriminate.
Qed.

Lemma target_dim_positive (d zf : Z) :
  (d - 1) mod 8 = 0 -> 0 < d -> 0 < zf -> 0 < target_dim d zf.
Proof.
  intros H Hd Hz. rewrite target_dim_exact by assumption.
  assert (0 <= (d - 1) / 8) by dlia. nia.
Qed.

(** ** Attributes of a constructed model *)

(** Assigning another attribute leaves the wiring alone. *)
Lemma wired_setattr self zf crit l0 l1 l2 l3 l4 head aux cls name v :
  name = "training" \/ name = "merge_with_stages" ->
  wired self zf crit l0 l1 l2 l3 l4 head aux cls ->
  wired (setattr self name v) zf crit l0 l1 l2 l3 l4 head aux cls.
Proof.
  intros Hname [? ? ? ? ? ? ? ? ? ?]. unfold setattr.
  split; (rewrite lookup_insert_ne; [assumption |]);
    destruct Hname as [-> | ->]; discriminate.
Qed.

Lemma mode_setattr_training self b :
  mode (setattr self "training" (VBool b)) = b.
Proof. unfold mode, setattr. rewrite lookup_insert_eq. reflexivity. Qed.

Lemma mode_setattr_other self name v :
  name <> "training" -> mode (setattr self name v) = mode self.
Proof. intros H. unfold mode, setattr. rewrite lookup_insert_ne by assumption. reflexivity. Qed.

Section Constructed.

Variable build_backbone_layers :
  string -> Z -> bool -> Z -> NormFamily ->
  result (Stage * Stage * Stage * Stage * Stage).

(** What a successful construction has checked and stored. *)
Lemma PyConvSegNet_init_inv layers dropout classes zoom_factor criterion
    BatchNorm pretrained backbone_output_stride backbone_net self :
  PyConvSegNet_init build_backbone_layers layers dropout classes zoom_factor
    criterion BatchNorm pretrained backbone_output_stride backbone_net = Ok self ->
  exists l0 l1 l2 l3 l4 head d,
    build_backbone_layers backbone_net layers pretrained backbone_output_stride
      BatchNorm = Ok (l0, l1, l2, l3, l4)
    /\ PyConvHead_init 2048 256 BatchNorm = Ok head
    /\ Dropout2d_init dropout = Ok d
    /\ 1 < classes
    /\ (zoom_factor = 1 \/ zoom_factor = 2 \/ zoom_factor = 4 \/ zoom_factor = 8)
    /\ wired self zoom_factor criterion l0 l1 l2 l3 l4 head
         [LConv2d (mkConv2d 1024 256 3 1 1 1 1 false); BatchNorm 256; LReLU; d;
          LConv2d (mkConv2d 256 classes 1 1 0 1 1 true)]
         [d; LConv2d (mkConv2d 256 classes 1 1 0 1 1 true)]
    /\ self !! "training" = Some (VBool true)
    /\ self !! "merge_with_stages" = None.
Proof.
  unfold PyConvSegNet_init.
  destruct (existsb (Z.eqb layers) [50; 101; 152; 200]); cbn [rbind py_assert]; [| discriminate].
  destruct (Z.ltb_spec 1 classes) as [Hcl |]; cbn [rbind py_assert]; [| discriminate].
  destruct (existsb (Z.eqb zoom_factor) [1; 2; 4; 8]) eqn:Ez; cbn [rbind py_assert]; [| discriminate].
  destruct (build_backbone_layers backbone_net layers pretrained
              backbone_output_stride BatchNorm) as [[[[[l0 l1] l2] l3] l4] |];
    cbn [rbind py_assert]; [| discriminate].
  destruct (PyConvHead_init 2048 256 BatchNorm) as [head |]; cbn [rbind py_assert]; [| discriminate].
  destruct (Conv2d_init 1024 256 3 1 1 1 1 false) as [a1 |] eqn:Ea1;
    cbn [rbind py_assert]; [| discriminate].
  destruct (Dropout2d_init dropout) as [d |]; cbn [rbind py_assert]; [| discriminate].
  destruct (Conv2d_init 256 classes 1 1 0 1 1 true) as [a2 |] eqn:Ea2;
    cbn [rbind py_assert]; [| discriminate].
  cbn zeta. intros [= <-].
  apply Conv2d_init_Ok in Ea1 as [_ ->]. apply Conv2d_init_Ok in Ea2 as [_ ->].
  exists l0, l1, l2, l3, l4, head, d.
  repeat (split; [first [reflexivity | assumption] |]).
  split.
  { simpl in Ez. rewrite !orb_true_iff in Ez.
    destruct Ez as [Ez | [Ez | [Ez | [Ez | Ez]]]]; try discriminate;
      apply Z.eqb_eq in Ez; auto. }
  unfold setattr, Module_init.
  split; [split |]; [.. | split]; simplify_map_eq; reflexivity.
Qed.

End Constructed.

(** ** Reading attributes and calling submodules *)

Lemma getattr_Some self name v :
  self !! name = Some v -> getattr self name = (Ok v, []).
Proof. intros H. unfold getattr. rewrite H. reflexivity. Qed.

Lemma getattr_None self name :
  self !! name = None -> getattr self name = (Err (AttributeError name), []).
Proof. intros H. unfold getattr. rewrite H. reflexivity. Qed.

Lemma getattr_int_VInt self name z :
  self !! name = Some (VInt z) -> getattr_int self name = (Ok z, []).
Proof. intros H. unfold getattr_int. rewrite (getattr_Some _ _ _ H). reflexivity. Qed.

Lemma call_attr_stage self name (s : Stage) (x : Size4) :
  self !! name = Some (VStage s) ->
  call_attr self name x = (s (mode self) x, [name]).
Proof. intros H. unfold call_attr. rewrite (getattr_Some _ _ _ H). reflexivity. Qed.

Lemma call_attr_head self name (h : PyConvHead) (x : Size4) :
  self !! name = Some (VPyConvHead h) ->
  outcome (call_attr self name x) = outcome (PyConvHead_forward (mode self) h x).
Proof.
  intros H. unfold call_attr. rewrite (getattr_Some _ _ _ H).
  rewrite outcome_bind. reflexivity.
Qed.

Lemma call_attr_sequential self name (ls : list layer) (x : Size4) :
  self !! name = Some (VSequential ls) ->
  outcome (call_attr self name x) = outcome (Sequential_forward (mode self) ls x).
Proof.
  intros H. unfold call_attr. rewrite (getattr_Some _ _ _ H).
  rewrite outcome_bind. reflexivity.
Qed.

Lemma call_criterion_outcome self (crit : Criterion) (x : Size4) y :
  self !! "criterion" = Some (VCriterion crit) ->
  outcome (call_criterion self x y) = crit x y.
Proof.
  intros H. unfold call_criterion. rewrite (getattr_Some _ _ _ H). reflexivity.
Qed.

Lemma Dropout2d_init_Ok p d : Dropout2d_init p = Ok d -> d = LDropout2d p.
Proof.
  unfold Dropout2d_init. destruct (Qle_bool 0 p && Qle_bool p 1); [| discriminate].
  intros [= <-]. reflexivity.
Qed.

Lemma backbone_run_Ok l0 l1 l2 l3 l4 training (x x3 x4 : Size4) :
  backbone_run l0 l1 l2 l3 l4 training x = Ok (x3, x4) ->
  exists x0 x1 x2,
    l0 training x = Ok x0 /\ l1 training x0 = Ok x1 /\ l2 training x1 = Ok x2
    /\ l3 training x2 = Ok x3 /\ l4 training x3 = Ok x4.
Proof.
  unfold backbone_run.
  destruct (l0 training x) as [x0 |] eqn:E0; simpl; [| discriminate].
  destruct (l1 training x0) as [x1 |] eqn:E1; simpl; [| discriminate].
  destruct (l2 training x1) as [x2 |] eqn:E2; simpl; [| discriminate].
  destruct (l3 training x2) as [x3' |] eqn:E3; simpl; [| discriminate].
  destruct (l4 training x3') as [x4' |] eqn:E4; simpl; [| discriminate].
  intros [= <- <-]. exists x0, x1, x2.
  repeat split; first [reflexivity | assumption].
Qed.

(** ** The forward pass up to the choice between the two modes *)

Section ForwardRun.

Variables (self : gmap string pyval) (zf classes : Z) (dropout : Q)
          (crit : Criterion) (l0 l1 l2 l3 l4 : Stage) (head : PyConvHead)
          (aux : list layer).
Variables (x x3 x4 : Size4) (y : option Size3).

Hypothesis Hwired :
  wired self zf crit l0 l1 l2 l3 l4 head aux
        [LDropout2d dropout; LConv2d (mkConv2d 256 classes 1 1 0 1 1 true)].
Hypothesis Hhead : PyConvHead_init 2048 256 BatchNorm2d = Ok head.
Hypothesis Hclasses : 0 < classes.
Hypothesis Hzf : 0 < zf.
Hypothesis Hheight : (height x - 1) mod 8 = 0.
Hypothesis Hwidth : (width x - 1) mod 8 = 0.
Hypothesis Hpos : 0 < height x /\ 0 < width x.
Hypothesis Hbackbone : backbone_run l0 l1 l2 l3 l4 (mode self) x = Ok (x3, x4).
Hypothesis Hx4 : channels x4 = 2048 /\ 0 < height x4 /\ 0 < width x4.
Hypothesis Hbn : bn_ok (mode self) x4.

Local Abbreviation head_out := (mkSize4 (batch x4) 256 (height x4) (width x4)).
Local Abbreviation cls_out := (mkSize4 (batch x4) classes (height x4) (width x4)).

Lemma run_head : outcome (call_attr self "pyconvhead" x4) = Ok head_out.
Proof.
  destruct Hx4 as (Hc4 & Hh4 & Hw4).
  rewrite (call_attr_head _ _ _ _ (w_pyconvhead _ _ _ _ _ _ _ _ _ _ _ Hwired)).
  eapply PyConvHead_forward_outcome;
    [exact Hhead | first [assumption | reflexivity | lia] ..].
Qed.

Lemma run_cls_conv :
  Conv2d_shape (mkConv2d 256 classes 1 1 0 1 1 true) head_out = Ok cls_out.
Proof.
  destruct Hx4 as (Hc4 & Hh4 & Hw4).
  rewrite Conv2d_shape_same_padding by solve_side. reflexivity.
Qed.

Lemma run_cls :
  call_attr self "cls" head_out = (Ok cls_out, ["Dropout2d"; "Conv2d"]).
Proof.
  unfold call_attr.
  rewrite (getattr_Some _ _ _ (w_cls _ _ _ _ _ _ _ _ _ _ _ Hwired)).
  cbn [bind ret Sequential_forward layer_forward Conv2d_forward tick lift app].
  rewrite run_cls_conv. reflexivity.
Qed.

Lemma run_upsample :
  outcome (if negb (zf =? 1)
           then interpolate cls_out (target_dim (height x) zf, target_dim (width x) zf)
           else ret cls_out) = Ok (forward_logits zf classes x x4)
  /\ executed (if negb (zf =? 1)
               then interpolate cls_out (target_dim (height x) zf,
                                         target_dim (width x) zf)
               else ret cls_out) = (if zf =? 1 then [] else ["interpolate"]).
Proof.
  destruct Hx4 as (Hc4 & Hh4 & Hw4). destruct Hpos as [Hhx Hwx].
  unfold forward_logits. destruct (zf =? 1); cbn [negb].
  - split; reflexivity.
  - split; [| reflexivity].
    apply interpolate_outcome; cbn [batch channels height width];
      first [assumption | apply target_dim_positive; assumption].
Qed.

(** Outcome and executed layers of the common part of [forward]. *)
Lemma forward_reaches_outputs :
  outcome (PyConvSegNet_forward self x y)
  = outcome (forward_outputs self (forward_logits zf classes x x4) x3
               (target_dim (height x) zf) (target_dim (width x) zf) y)
  /\ executed (PyConvSegNet_forward self x y)
     = ["layer0"; "layer1"; "layer2"; "layer3"; "layer4"]
       ++ executed (PyConvHead_forward (mode self) head x4)
       ++ ["Dropout2d"; "Conv2d"]
       ++ (if zf =? 1 then [] else ["interpolate"])
       ++ executed (forward_outputs self (forward_logits zf classes x x4) x3
                      (target_dim (height x) zf) (target_dim (width x) zf) y).
Proof.
  destruct Hwired as [Hz Hc H0 H1 H2 H3 H4 Hh Ha Hcls].
  destruct (backbone_run_Ok _ _ _ _ _ _ _ _ _ Hbackbone)
    as (x0 & x1 & x2 & E0 & E1 & E2 & E3 & E4).
  assert (A : outcome (lift (py_assert (((height x - 1) mod 8 =? 0)
                                        && ((width x - 1) mod 8 =? 0)))) = Ok tt)
    by (rewrite Hheight, Hwidth; reflexivity).
  assert (Z : outcome (getattr_int self "zoom_factor") = Ok zf)
    by (rewrite (getattr_int_VInt _ _ _ Hz); reflexivity).
  assert (S0 : outcome (call_attr self "layer0" x) = Ok x0)
    by (rewrite (call_attr_stage _ _ _ _ H0); exact E0).
  assert (S1 : outcome (call_attr self "layer1" x0) = Ok x1)
    by (rewrite (call_attr_stage _ _ _ _ H1); exact E1).
  assert (S2 : outcome (call_attr self "layer2" x1) = Ok x2)
    by (rewrite (call_attr_stage _ _ _ _ H2); exact E2).
  assert (S3 : outcome (call_attr self "layer3" x2) = Ok x3)
    by (rewrite (call_attr_stage _ _ _ _ H3); exact E3).
  assert (S4 : outcome (call_attr self "layer4" x3) = Ok x4)
    by (rewrite (call_attr_stage _ _ _ _ H4); exact E4).
  assert (C : outcome (call_attr self "cls" head_out) = Ok cls_out)
    by (rewrite run_cls; reflexivity).
  destruct run_upsample as [U Ut].
  unfold PyConvSegNet_forward. split.
  - rewrite (outcome_bind_ok _ _ _ A), (outcome_bind_ok _ _ _ Z),
      (outcome_bind_ok _ _ _ Z), (outcome_bind_ok _ _ _ S0),
      (outcome_bind_ok _ _ _ S1), (outcome_bind_ok _ _ _ S2),
      (outcome_bind_ok _ _ _ S3), (outcome_bind_ok _ _ _ S4),
      (outcome_bind_ok _ _ _ run_head), (outcome_bind_ok _ _ _ C),
      (outcome_bind_ok _ _ _ Z), (outcome_bind_ok _ _ _ U).
    reflexivity.
  - rewrite (executed_bind_ok _ _ _ A), (executed_bind_ok _ _ _ Z),
      (executed_bind_ok _ _ _ Z), (executed_bind_ok _ _ _ S0),
      (executed_bind_ok _ _ _ S1), (executed_bind_ok _ _ _ S2),
      (executed_bind_ok _ _ _ S3), (executed_bind_ok _ _ _ S4),
      (executed_bind_ok _ _ _ run_head), (executed_bind_ok _ _ _ C),
      (executed_bind_ok _ _ _ Z), (executed_bind_ok _ _ _ U).
    rewrite Ut, run_cls, !(call_attr_stage _ _ _ _ H0), !(call_attr_stage _ _ _ _ H1),
      !(call_attr_stage _ _ _ _ H2), !(call_attr_stage _ _ _ _ H3),
      !(call_attr_stage _ _ _ _ H4), (getattr_int_VInt _ _ _ Hz).
    assert (Hhd : executed (call_attr self "pyconvhead" x4)
                  = executed (PyConvHead_forward (mode self) head x4)).
    { unfold call_attr. rewrite (getattr_Some _ _ _ Hh).
      cbn [bind]. destruct (PyConvHead_forward (mode self) head x4). reflexivity. }
    rewrite Hhd. reflexivity.
Qed.

(** The layers that the common part executes, by name and in order. *)
Lemma forward_executes_forward_log :
  executed (PyConvSegNet_forward self x y)
  = forward_log zf
    ++ executed (forward_outputs self (forward_logits zf classes x x4) x3
                   (target_dim (height x) zf) (target_dim (width x) zf) y).
Proof.
  destruct forward_reaches_outputs as [_ ->].
  pose proof run_head as Hrun.
  rewrite (call_attr_head _ _ _ _ (w_pyconvhead _ _ _ _ _ _ _ _ _ _ _ Hwired)) in Hrun.
  rewrite (PyConvHead_forward_log _ _ _ _ _ _ Hhead Hrun).
  unfold forward_log. rewrite <- !app_assoc. reflexivity.
Qed.

End ForwardRun.

(** ** The two modes *)

(** A returning [forward] has reached the choice between the modes. *)
Lemma forward_Ok_inv self (x : Size4) y o :
  outcome (PyConvSegNet_forward self x y) = Ok o ->
  exists logits out_stage3 h w,
    outcome (forward_outputs self logits out_stage3 h w y) = Ok o.
Proof.
  unfold PyConvSegNet_forward. intros H.
  do 12 (apply outcome_bind_Ok_inv in H as (? & _ & H)).
  eauto.
Qed.

Lemma forward_outputs_inference self (logits out_stage3 : Size4) h w y :
  self !! "training" = Some (VBool false) ->
  forward_outputs self logits out_stage3 h w y = (Ok (Logits logits), []).
Proof.
  intros Ht. unfold forward_outputs. rewrite (getattr_Some _ _ _ Ht). reflexivity.
Qed.

(** In training mode the flag is read right after the main loss. *)
Lemma forward_outputs_missing_flag self crit (logits out_stage3 : Size4) h w y loss :
  self !! "training" = Some (VBool true) ->
  self !! "criterion" = Some (VCriterion crit) ->
  crit logits y = Ok loss ->
  self !! "merge_with_stages" = None ->
  outcome (forward_outputs self logits out_stage3 h w y)
  = Err (AttributeError "merge_with_stages").
Proof.
  intros Ht Hc Hl Hm. unfold forward_outputs.
  step_with ltac:(rewrite (getattr_Some _ _ _ Ht); reflexivity).
  cbn [truthy].
  step_with ltac:(rewrite (call_criterion_outcome _ _ _ _ Hc); exact Hl).
  apply outcome_bind_err. rewrite (getattr_None _ _ Hm). reflexivity.
Qed.

Lemma forward_outputs_missing_flag_fails self (logits out_stage3 : Size4) h w y o :
  self !! "training" = Some (VBool true) ->
  self !! "merge_with_stages" = None ->
  outcome (forward_outputs self logits out_stage3 h w y) <> Ok o.
Proof.
  intros Ht Hm H. unfold forward_outputs in H.
  rewrite (outcome_bind_ok _ _ (VBool true)) in H
    by (rewrite (getattr_Some _ _ _ Ht); reflexivity).
  cbn [truthy] in H.
  apply outcome_bind_Ok_inv in H as (main_loss & _ & H).
  rewrite (outcome_bind_err _ _ (AttributeError "merge_with_stages")) in H
    by (rewrite (getattr_None _ _ Hm); reflexivity).
  discriminate H.
Qed.

(** With zoom factor 1 and a falsy flag the auxiliary branch leaves
    [aux_loss] unassigned. *)
Lemma forward_outputs_zoom_1_fails self v (logits out_stage3 : Size4) h w y o :
  self !! "training" = Some (VBool true) ->
  self !! "zoom_factor" = Some (VInt 1) ->
  self !! "merge_with_stages" = Some v -> truthy v = false ->
  outcome (forward_outputs self logits out_stage3 h w y) <> Ok o.
Proof.
  intros Ht Hz Hm Hv H. unfold forward_outputs in H.
  rewrite (outcome_bind_ok _ _ (VBool true)) in H
    by (rewrite (getattr_Some _ _ _ Ht); reflexivity).
  cbn [truthy] in H.
  apply outcome_bind_Ok_inv in H as (main_loss & _ & H).
  rewrite (outcome_bind_ok _ _ v) in H
    by (rewrite (getattr_Some _ _ _ Hm); reflexivity).
  rewrite Hv in H. cbn [negb] in H.
  apply outcome_bind_Ok_inv in H as (aux_loss & Haux & H).
  apply outcome_bind_Ok_inv in Haux as (aux & _ & Haux).
  rewrite (outcome_bind_ok _ _ 1) in Haux
    by (rewrite (getattr_int_VInt _ _ _ Hz); reflexivity).
  cbn in Haux. injection Haux as <-.
  apply outcome_bind_Ok_inv in H as (prediction & _ & H).
  discriminate H.
Qed.

Lemma forward_outputs_zoom_1_unbound self crit v dropout classes
    (logits out_stage3 : Size4) h w y loss :
  self !! "training" = Some (VBool true) ->
  self !! "zoom_factor" = Some (VInt 1) ->
  self !! "criterion" = Some (VCriterion crit) ->
  self !! "aux" = Some (VSequential
                          [LConv2d (mkConv2d 1024 256 3 1 1 1 1 false);
                           BatchNorm2d 256; LReLU; LDropout2d dropout;
                           LConv2d (mkConv2d 256 classes 1 1 0 1 1 true)]) ->
  self !! "merge_with_stages" = Some v -> truthy v = false ->
  crit logits y = Ok loss ->
  0 < classes -> 0 < channels logits ->
  channels out_stage3 = 1024 -> 0 < height out_stage3 -> 0 < width out_stage3 ->
  bn_ok true out_stage3 ->
  outcome (forward_outputs self logits out_stage3 h w y)
  = Err (UnboundLocalError "aux_loss").
Proof.
  intros Ht Hz Hc Ha Hm Hv Hl Hcls Hcl Hc3 Hh3 Hw3 Hbn. unfold forward_outputs.
  assert (Hmode : mode self = true) by (unfold mode; rewrite Ht; reflexivity).
  step_with ltac:(rewrite (getattr_Some _ _ _ Ht); reflexivity).
  cbn [truthy].
  step_with ltac:(rewrite (call_criterion_outcome _ _ _ _ Hc); exact Hl).
  step_with ltac:(rewrite (getattr_Some _ _ _ Hm); reflexivity).
  rewrite Hv. cbn [negb].
  assert (Hbn' : forall c, bn_ok true (mkSize4 (batch out_stage3) c
                                         (height out_stage3) (width out_stage3)))
    by (intros c; exact Hbn).
  step_with ltac:(step_with ltac:(rewrite (call_attr_sequential _ _ _ _ Ha), Hmode;
                                  run_sequential; reflexivity);
                  step_with ltac:(rewrite (getattr_int_VInt _ _ _ Hz); reflexivity);
                  reflexivity).
  step_with ltac:(rewrite outcome_lift; unfold argmax_channels;
                  destruct (Z.leb_spec (channels logits) 0); [lia | reflexivity]).
  reflexivity.
Qed.

Section ConstructedModel.

Variable build_backbone_layers :
  string -> Z -> bool -> Z -> NormFamily ->
  result (Stage * Stage * Stage * Stage * Stage).

(** A model built with the default normalisation, seen through the
    stages that the backbone provider returned. *)
Lemma PyConvSegNet_init_wired layers dropout classes zoom_factor criterion
    pretrained backbone_output_stride backbone_net self l0 l1 l2 l3 l4 :
  PyConvSegNet_init build_backbone_layers layers dropout classes zoom_factor
    criterion BatchNorm2d pretrained backbone_output_stride backbone_net = Ok self ->
  build_backbone_layers backbone_net layers pretrained backbone_output_stride
    BatchNorm2d = Ok (l0, l1, l2, l3, l4) ->
  exists head,
    PyConvHead_init 2048 256 BatchNorm2d = Ok head
    /\ 1 < classes /\ 0 < zoom_factor
    /\ wired self zoom_factor criterion l0 l1 l2 l3 l4 head
         [LConv2d (mkConv2d 1024 256 3 1 1 1 1 false); BatchNorm2d 256; LReLU;
          LDropout2d dropout; LConv2d (mkConv2d 256 classes 1 1 0 1 1 true)]
         [LDropout2d dropout; LConv2d (mkConv2d 256 classes 1 1 0 1 1 true)]
    /\ self !! "training" = Some (VBool true)
    /\ self !! "merge_with_stages" = None.
Proof.
  intros Hinit Hbb.
  destruct (PyConvSegNet_init_inv _ _ _ _ _ _ _ _ _ _ _ Hinit)
    as (l0' & l1' & l2' & l3' & l4' & head & d & Hbb' & Hhead & Hd & Hcl & Hz
        & Hw & Ht & Hm).
  rewrite Hbb in Hbb'. injection Hbb' as <- <- <- <- <-.
  apply Dropout2d_init_Ok in Hd as ->.
  exists head.
  split; [exact Hhead |]. split; [exact Hcl |]. split; [lia |].
  split; [exact Hw |]. split; [exact Ht | exact Hm].
Qed.

End ConstructedModel.

(** ** The top-level model *)

Section PyConvSegNet.

Variable build_backbone_layers :
  string -> Z -> bool -> Z -> NormFamily ->
  result (Stage * Stage * Stage * Stage * Stage).

Variables (layers : Z) (dropout : Q) (classes : Z) (criterion : Criterion)
          (pretrained : bool) (backbone_output_stride : Z) (backbone_net : string).

(** The constructor with every argument but the zoom factor fixed, and
    the call of the backbone provider it makes. *)
Local Abbreviation construct zoom_factor :=
  (PyConvSegNet_init build_backbone_layers layers dropout classes zoom_factor
     criterion BatchNorm2d pretrained backbone_output_stride backbone_net).

Local Abbreviation backbone :=
  (build_backbone_layers backbone_net layers pretrained backbone_output_stride
     BatchNorm2d).

(** In evaluation mode the forward pass returns the logits, at the
    backbone's resolution for zoom factor 1 and at the target size
    otherwise; the classifier runs last, followed by the interpolation
    unless the zoom factor is 1. *)
Lemma forward_eval_run zoom_factor self l0 l1 l2 l3 l4 (x x3 x4 : Size4) y :
  construct zoom_factor = Ok self ->
  backbone = Ok (l0, l1, l2, l3, l4) ->
  (height x - 1) mod 8 = 0 -> (width x - 1) mod 8 = 0 ->
  0 < height x -> 0 < width x ->
  backbone_run l0 l1 l2 l3 l4 false x = Ok (x3, x4) ->
  channels x4 = 2048 -> 0 < height x4 -> 0 < width x4 ->
  outcome (PyConvSegNet_forward (PyConvSegNet_eval self) x y)
  = Ok (Logits (forward_logits zoom_factor classes x x4))
  /\ exists before,
      executed (PyConvSegNet_forward (PyConvSegNet_eval self) x y)
      = before ++ ["Dropout2d"; "Conv2d"]
        ++ (if zoom_factor =? 1 then [] else ["interpolate"]).
Proof.
  intros Hinit Hbb Hh Hw Hhx Hwx Hrun Hc4 Hh4 Hw4.
  destruct (PyConvSegNet_init_wired _ _ _ _ _ _ _ _ _ _ _ _ _ _ _ Hinit Hbb)
    as (head & Hhead & Hcl & Hz & Hwd & Ht & Hm).
  pose proof (wired_setattr _ _ _ _ _ _ _ _ _ _ _ "training" (VBool false)
                (or_introl eq_refl) Hwd) as Hwd'.
  fold (PyConvSegNet_eval self) in Hwd'.
  assert (Hmode : mode (PyConvSegNet_eval self) = false)
    by apply mode_setattr_training.
  rewrite <- Hmode in Hrun.
  destruct (forward_reaches_outputs _ _ _ _ _ _ _ _ _ _ _ _ x x3 x4 y Hwd' Hhead
              ltac:(lia) Hz Hh Hw (conj Hhx Hwx) Hrun (conj Hc4 (conj Hh4 Hw4))
              (or_introl Hmode)) as [Hout Hex].
  assert (Htail : forall lg h w,
             forward_outputs (PyConvSegNet_eval self) lg x3 h w y
             = (Ok (Logits lg), [])).
  { intros lg h w. apply forward_outputs_inference.
    unfold PyConvSegNet_eval, setattr. apply lookup_insert_eq. }
  rewrite Hout, Hex, Htail. split; [reflexivity |].
  eexists. cbn [executed snd]. rewrite app_nil_r, !app_assoc. reflexivity.
Qed.

(** C1. With zoom factor 8 and in evaluation mode, an input of size
    (1, 3, 473, 473) yields the logits themselves, of size
    (1, classes, 473, 473): the target extent is (473 - 1) / 8 * 8 + 1 =
    473, the result is not a triple, and no criterion is consulted
    (the statement holds for every criterion and every label map). *)
Theorem forward_inference_473 self l0 l1 l2 l3 l4 (x3 x4 : Size4) y :
  construct 8 = Ok self ->
  backbone = Ok (l0, l1, l2, l3, l4) ->
  backbone_run l0 l1 l2 l3 l4 false (mkSize4 1 3 473 473) = Ok (x3, x4) ->
  batch x4 = 1 -> channels x4 = 2048 -> 0 < height x4 -> 0 < width x4 ->
  target_dim 473 8 = 473
  /\ outcome (PyConvSegNet_forward (PyConvSegNet_eval self) (mkSize4 1 3 473 473) y)
     = Ok (Logits (mkSize4 1 classes 473 473)).
Proof.
  intros Hinit Hbb Hrun Hb4 Hc4 Hh4 Hw4. split; [reflexivity |].
  destruct (forward_eval_run 8 self l0 l1 l2 l3 l4 (mkSize4 1 3 473 473) x3 x4 y)
    as [Hout _]; try assumption; try reflexivity.
  rewrite Hout. unfold forward_logits. simpl. rewrite Hb4. reflexivity.
Qed.

(** C9. In evaluation mode, a model built with zoom factor 1 skips the
    final interpolation: the last layers executed are those of the
    classifier, and the logits come back at the height and width of the
    backbone's output.  With any other zoom factor the classifier is
    followed by the interpolation, and the logits have the target size
    ((H - 1) / 8 * zoom_factor + 1, (W - 1) / 8 * zoom_factor + 1). *)
Theorem forward_zoom_factor_1_skips_upsample zoom_factor self l0 l1 l2 l3 l4
    (x x3 x4 : Size4) y :
  construct zoom_factor = Ok self ->
  backbone = Ok (l0, l1, l2, l3, l4) ->
  (height x - 1) mod 8 = 0 -> (width x - 1) mod 8 = 0 ->
  0 < height x -> 0 < width x ->
  backbone_run l0 l1 l2 l3 l4 false x = Ok (x3, x4) ->
  channels x4 = 2048 -> 0 < height x4 -> 0 < width x4 ->
  (zoom_factor = 1 ->
   outcome (PyConvSegNet_forward (PyConvSegNet_eval self) x y)
   = Ok (Logits (mkSize4 (batch x4) classes (height x4) (width x4)))
   /\ exists before,
       executed (PyConvSegNet_forward (PyConvSegNet_eval self) x y)
       = before ++ ["Dropout2d"; "Conv2d"])
  /\ (zoom_factor <> 1 ->
      outcome (PyConvSegNet_forward (PyConvSegNet_eval self) x y)
      = Ok (Logits (mkSize4 (batch x4) classes
                            ((height x - 1) / 8 * zoom_factor + 1)
                            ((width x - 1) / 8 * zoom_factor + 1)))
      /\ exists before,
          executed (PyConvSegNet_forward (PyConvSegNet_eval self) x y)
          = before ++ ["Dropout2d"; "Conv2d"; "interpolate"]).
Proof.
  intros Hinit Hbb Hh Hw Hhx Hwx Hrun Hc4 Hh4 Hw4.
  destruct (forward_eval_run _ _ _ _ _ _ _ _ _ _ y Hinit Hbb Hh Hw Hhx Hwx
              Hrun Hc4 Hh4 Hw4) as [Hout [before Hex]].
  unfold forward_logits in Hout. split.
  - intros ->. split; [exact Hout |].
    exists before. rewrite Hex. reflexivity.
  - intros Hne. destruct (Z.eqb_spec zoom_factor 1) as [| _]; [contradiction |].
    rewrite !target_dim_exact in Hout by assumption. split; [exact Hout |].
    exists before. rewrite Hex. reflexivity.
Qed.

(** C3. The shape check comes first.  If the height or the width of the
    input breaks (dim - 1) mod 8 = 0, [forward] raises an
    [AssertionError] with no layer executed, in either mode.  If both
    satisfy it, the check passes and the layers run: the first backbone
    stage is executed next, on the input itself (an exception it raises
    is the outcome of [forward], after [layer0] alone); and when the
    backbone returns 2048 channels on a non-empty plane, [forward]
    executes the five stages, the layers of the head, the classifier and
    (unless the zoom factor is 1) the interpolation, by name and in this
    order, and goes on with the logits so computed; in evaluation mode
    they are the result. *)
Theorem forward_checks_shape_first zoom_factor self (b : bool) (x : Size4) y :
  construct zoom_factor = Ok self ->
  ((height x - 1) mod 8 <> 0 \/ (width x - 1) mod 8 <> 0 ->
   PyConvSegNet_forward (setattr self "training" (VBool b)) x y
   = (Err AssertionError, []))
  /\ ((height x - 1) mod 8 = 0 -> (width x - 1) mod 8 = 0 ->
      (exists rest,
        executed (PyConvSegNet_forward (setattr self "training" (VBool b)) x y)
        = "layer0" :: rest)
      /\ forall l0 l1 l2 l3 l4,
          backbone = Ok (l0, l1, l2, l3, l4) ->
          (forall e, l0 b x = Err e ->
             PyConvSegNet_forward (setattr self "training" (VBool b)) x y
             = (Err e, ["layer0"]))
          /\ (forall x3 x4 : Size4,
                0 < height x -> 0 < width x ->
                backbone_run l0 l1 l2 l3 l4 b x = Ok (x3, x4) ->
                channels x4 = 2048 -> 0 < height x4 -> 0 < width x4 ->
                bn_ok b x4 ->
                outcome (PyConvSegNet_forward (setattr self "training" (VBool b)) x y)
                = outcome (forward_outputs (setattr self "training" (VBool b))
                             (forward_logits zoom_factor classes x x4) x3
                             (target_dim (height x) zoom_factor)
                             (target_dim (width x) zoom_factor) y)
                /\ executed (PyConvSegNet_forward
                               (setattr self "training" (VBool b)) x y)
                   = forward_log zoom_factor
                     ++ executed (forward_outputs (setattr self "training" (VBool b))
                                    (forward_logits zoom_factor classes x x4) x3
                                    (target_dim (height x) zoom_factor)
                                    (target_dim (width x) zoom_factor) y)
                /\ (b = false ->
                    PyConvSegNet_forward (setattr self "training" (VBool b)) x y
                    = (Ok (Logits (forward_logits zoom_factor classes x x4)),
                       forward_log zoom_factor)))).
Proof.
  intros Hinit. split.
  - intros Hbad. unfold PyConvSegNet_forward.
    assert (((height x - 1) mod 8 =? 0) && ((width x - 1) mod 8 =? 0) = false)
      as ->; [| reflexivity].
    apply andb_false_iff.
    destruct Hbad as [Hbad | Hbad]; [left | right]; apply Z.eqb_neq; exact Hbad.
  - intros Hh Hw. split.
    + destruct (PyConvSegNet_init_inv _ _ _ _ _ _ _ _ _ _ _ Hinit)
        as (l0 & l1 & l2 & l3 & l4 & head & d & _ & _ & _ & _ & _ & Hwd & _ & _).
      pose proof (wired_setattr _ _ _ _ _ _ _ _ _ _ _ "training" (VBool b)
                    (or_introl eq_refl) Hwd) as [Hz _ H0 _ _ _ _ _ _ _].
      unfold PyConvSegNet_forward. rewrite Hh, Hw.
      rewrite (executed_bind_ok _ _ tt) by reflexivity.
      do 2 rewrite (executed_bind_ok _ _ zoom_factor)
        by (rewrite (getattr_int_VInt _ _ _ Hz); reflexivity).
      match goal with
      | |- context [executed (bind (call_attr ?s ?n ?v) ?k)] =>
          destruct (executed_bind_prefix (call_attr s n v) k) as [rest ->]
      end.
      rewrite (getattr_int_VInt _ _ _ Hz), (call_attr_stage _ _ _ _ H0).
      exists rest. reflexivity.
    + intros l0 l1 l2 l3 l4 Hbb.
      destruct (PyConvSegNet_init_wired _ _ _ _ _ _ _ _ _ _ _ _ _ _ _ Hinit Hbb)
        as (head & Hhead & Hcl & Hz & Hwd & _ & _).
      pose proof (wired_setattr _ _ _ _ _ _ _ _ _ _ _ "training" (VBool b)
                    (or_introl eq_refl) Hwd) as Hwd'.
      set (self' := setattr self "training" (VBool b)) in *.
      assert (Hmode : mode self' = b) by apply mode_setattr_training.
      split.
      * intros e He. unfold PyConvSegNet_forward. rewrite Hh, Hw.
        rewrite (getattr_int_VInt _ _ _ (w_zoom_factor _ _ _ _ _ _ _ _ _ _ _ Hwd')),
          (call_attr_stage _ _ _ _ (w_layer0 _ _ _ _ _ _ _ _ _ _ _ Hwd')), Hmode, He.
        reflexivity.
      * intros x3 x4 Hhx Hwx Hrun Hc4 Hh4 Hw4 Hbn.
        rewrite <- Hmode in Hrun, Hbn.
        destruct (forward_reaches_outputs _ _ _ _ _ _ _ _ _ _ _ _ x x3 x4 y Hwd' Hhead
                    ltac:(lia) Hz Hh Hw (conj Hhx Hwx) Hrun (conj Hc4 (conj Hh4 Hw4))
                    Hbn) as [Hout _].
        pose proof (forward_executes_forward_log _ _ _ _ _ _ _ _ _ _ _ _ x x3 x4 y
                      Hwd' Hhead ltac:(lia) Hz Hh Hw (conj Hhx Hwx) Hrun
                      (conj Hc4 (conj Hh4 Hw4)) Hbn) as Hex.
        split; [exact Hout |]. split; [exact Hex |].
        intros ->.
        assert (Htail : forall lg h w,
                   forward_outputs self' lg x3 h w y = (Ok (Logits lg), [])).
        { intros lg h w. apply forward_outputs_inference.
          unfold self', setattr. apply lookup_insert_eq. }
        rewrite Htail in Hout, Hex. rewrite app_nil_r in Hex.
        destruct (PyConvSegNet_forward self' x y) as [r t].
        cbn [outcome executed fst snd] in Hout, Hex. rewrite Hout, Hex. reflexivity.
Qed.

(** After construction [train()] changes nothing: the model already is
    in training mode. *)
Lemma PyConvSegNet_train_constructed zoom_factor self :
  construct zoom_factor = Ok self -> PyConvSegNet_train self = self.
Proof.
  intros Hinit.
  destruct (PyConvSegNet_init_inv _ _ _ _ _ _ _ _ _ _ _ Hinit)
    as (l0 & l1 & l2 & l3 & l4 & head & d & _ & _ & _ & _ & _ & _ & Ht & _).
  unfold PyConvSegNet_train, setattr. apply insert_id. exact Ht.
Qed.

(** C2. The constructor never assigns [merge_with_stages] and leaves the
    model in training mode.  Hence no forward call on a freshly
    constructed model returns, and one that gets past the shape check,
    the backbone, the head, the classifier and the main loss fails with
    [AttributeError] on [merge_with_stages]. *)
Theorem merge_with_stages_never_initialized zoom_factor self :
  construct zoom_factor = Ok self ->
  self !! "merge_with_stages" = None
  /\ self !! "training" = Some (VBool true)
  /\ (forall (x : Size4) y o, outcome (PyConvSegNet_forward self x y) <> Ok o)
  /\ (forall l0 l1 l2 l3 l4 (x x3 x4 : Size4) y loss,
        backbone = Ok (l0, l1, l2, l3, l4) ->
        (height x - 1) mod 8 = 0 -> (width x - 1) mod 8 = 0 ->
        0 < height x -> 0 < width x ->
        backbone_run l0 l1 l2 l3 l4 true x = Ok (x3, x4) ->
        channels x4 = 2048 -> 0 < height x4 -> 0 < width x4 -> bn_ok true x4 ->
        criterion (forward_logits zoom_factor classes x x4) y = Ok loss ->
        outcome (PyConvSegNet_forward self x y)
        = Err (AttributeError "merge_with_stages")).
Proof.
  intros Hinit.
  destruct (PyConvSegNet_init_inv _ _ _ _ _ _ _ _ _ _ _ Hinit)
    as (l0' & l1' & l2' & l3' & l4' & head' & d & _ & _ & _ & _ & _ & _ & Ht & Hm).
  split; [exact Hm |]. split; [exact Ht |]. split.
  - intros x y o H.
    apply forward_Ok_inv in H as (lg & x3 & h & w & H).
    exact (forward_outputs_missing_flag_fails _ _ _ _ _ _ _ Ht Hm H).
  - intros l0 l1 l2 l3 l4 x x3 x4 y loss Hbb Hh Hw Hhx Hwx Hrun Hc4 Hh4 Hw4 Hbn Hl.
    destruct (PyConvSegNet_init_wired _ _ _ _ _ _ _ _ _ _ _ _ _ _ _ Hinit Hbb)
      as (head & Hhead & Hcl & Hz & Hwd & _ & _).
    assert (Hmode : mode self = true) by (unfold mode; rewrite Ht; reflexivity).
    rewrite <- Hmode in Hrun, Hbn.
    destruct (forward_reaches_outputs _ _ _ _ _ _ _ _ _ _ _ _ x x3 x4 y Hwd Hhead
                ltac:(lia) Hz Hh Hw (conj Hhx Hwx) Hrun (conj Hc4 (conj Hh4 Hw4))
                Hbn) as [Hout _].
    rewrite Hout.
    eapply forward_outputs_missing_flag; [exact Ht | apply Hwd | exact Hl | exact Hm].
Qed.

(** C10. With zoom factor 1, training mode and a falsy
    [merge_with_stages] (assigned from outside, whatever its value), the
    auxiliary branch runs [self.aux] but never assigns [aux_loss]:
    no forward call returns a triple, and one that gets as far as the
    [return] fails with [UnboundLocalError] on [aux_loss]. *)
Theorem aux_loss_unassigned_at_zoom_1 self (v : pyval) :
  construct 1 = Ok self ->
  truthy v = false ->
  (forall (x : Size4) y o,
      outcome (PyConvSegNet_forward (setattr self "merge_with_stages" v) x y)
      <> Ok o)
  /\ (forall l0 l1 l2 l3 l4 (x x3 x4 : Size4) y loss,
        backbone = Ok (l0, l1, l2, l3, l4) ->
        (height x - 1) mod 8 = 0 -> (width x - 1) mod 8 = 0 ->
        0 < height x -> 0 < width x ->
        backbone_run l0 l1 l2 l3 l4 true x = Ok (x3, x4) ->
        channels x3 = 1024 -> 0 < height x3 -> 0 < width x3 -> bn_ok true x3 ->
        channels x4 = 2048 -> 0 < height x4 -> 0 < width x4 -> bn_ok true x4 ->
        criterion (mkSize4 (batch x4) classes (height x4) (width x4)) y = Ok loss ->
        outcome (PyConvSegNet_forward (setattr self "merge_with_stages" v) x y)
        = Err (UnboundLocalError "aux_loss")).
Proof.
  intros Hinit Hv.
  destruct (PyConvSegNet_init_inv _ _ _ _ _ _ _ _ _ _ _ Hinit)
    as (l0' & l1' & l2' & l3' & l4' & head' & d & _ & _ & _ & _ & _ & Hwd0 & Ht & _).
  set (self' := setattr self "merge_with_stages" v).
  assert (Ht' : self' !! "training" = Some (VBool true))
    by (unfold self', setattr; rewrite lookup_insert_ne by discriminate; exact Ht).
  assert (Hm' : self' !! "merge_with_stages" = Some v)
    by (unfold self', setattr; apply lookup_insert_eq).
  split.
  - intros x y o H.
    apply forward_Ok_inv in H as (lg & x3 & h & w & H).
    pose proof (wired_setattr _ _ _ _ _ _ _ _ _ _ _ "merge_with_stages" v
                  (or_intror eq_refl) Hwd0) as [Hz _ _ _ _ _ _ _ _ _].
    exact (forward_outputs_zoom_1_fails _ _ _ _ _ _ _ _ Ht' Hz Hm' Hv H).
  - intros l0 l1 l2 l3 l4 x x3 x4 y loss Hbb Hh Hw Hhx Hwx Hrun
           Hc3 Hh3 Hw3 Hbn3 Hc4 Hh4 Hw4 Hbn4 Hl.
    destruct (PyConvSegNet_init_wired _ _ _ _ _ _ _ _ _ _ _ _ _ _ _ Hinit Hbb)
      as (head & Hhead & Hcl & Hz & Hwd & _ & _).
    pose proof (wired_setattr _ _ _ _ _ _ _ _ _ _ _ "merge_with_stages" v
                  (or_intror eq_refl) Hwd) as Hwd'.
    fold self' in Hwd'.
    assert (Hmode : mode self' = true) by (unfold mode; rewrite Ht'; reflexivity).
    rewrite <- Hmode in Hrun, Hbn4.
    destruct (forward_reaches_outputs _ _ _ _ _ _ _ _ _ _ _ _ x x3 x4 y Hwd' Hhead
                ltac:(lia) Hz Hh Hw (conj Hhx Hwx) Hrun (conj Hc4 (conj Hh4 Hw4))
                Hbn4) as [Hout _].
    rewrite Hout. unfold forward_logits. cbn [Z.eqb Pos.eqb].
    destruct Hwd' as [Hz' Hc' _ _ _ _ _ _ Ha' _].
    eapply forward_outputs_zoom_1_unbound; try eassumption;
      cbn [channels]; lia.
Qed.

End PyConvSegNet.

(** ** The model of the diagnostic script, on the reference backbone *)

Lemma reference_init_8 : reference_init 8 = Ok (reference_model 8).
Proof. vm_compute. reflexivity. Qed.

Lemma reference_init_1 : reference_init 1 = Ok (reference_model 1).
Proof. vm_compute. reflexivity. Qed.

Lemma reference_backbone_run_473 (training : bool) :
  backbone_run (reference_stage 3 64 2) (reference_stage 64 256 2)
    (reference_stage 256 512 2) (reference_stage 512 1024 1)
    (reference_stage 1024 2048 1) training (mkSize4 1 3 473 473)
  = Ok (mkSize4 1 1024 60 60, mkSize4 1 2048 60 60).
Proof. reflexivity. Qed.

Lemma forward_inference_473_witness :
  outcome (PyConvSegNet_forward (PyConvSegNet_eval (reference_model 8))
             (mkSize4 1 3 473 473) None)
  = Ok (Logits (mkSize4 1 150 473 473)).
Proof.
  refine (proj2 (forward_inference_473 reference_backbone 50 (1 # 10) 150
                   (CrossEntropyLoss 255) true 8 "resnet" (reference_model 8)
                   _ _ _ _ _ (mkSize4 1 1024 60 60) (mkSize4 1 2048 60 60) None
                   reference_init_8 eq_refl (reference_backbone_run_473 false)
                   eq_refl eq_refl _ _)); simpl; lia.
Defined.

Lemma forward_zoom_factor_1_skips_upsample_witness :
  outcome (PyConvSegNet_forward (PyConvSegNet_eval (reference_model 1))
             (mkSize4 1 3 473 473) None)
  = Ok (Logits (mkSize4 1 150 60 60)).
Proof.
  refine (proj1 (proj1 (forward_zoom_factor_1_skips_upsample reference_backbone 50
                   (1 # 10) 150 (CrossEntropyLoss 255) true 8 "resnet" 1
                   (reference_model 1) _ _ _ _ _
                   (mkSize4 1 3 473 473) (mkSize4 1 1024 60 60) (mkSize4 1 2048 60 60)
                   None reference_init_1 eq_refl eq_refl eq_refl _ _
                   (reference_backbone_run_473 false) eq_refl _ _) eq_refl));
    simpl; lia.
Defined.

Lemma forward_checks_shape_first_witness :
  PyConvSegNet_forward (setattr (reference_model 8) "training" (VBool false))
    (mkSize4 1 3 100 100) None
  = (Err AssertionError, [])
  /\ PyConvSegNet_forward (setattr (reference_model 8) "training" (VBool false))
       (mkSize4 1 3 473 473) None
     = (Ok (Logits (mkSize4 1 150 473 473)), forward_log 8).
Proof.
  split.
  - refine (proj1 (forward_checks_shape_first reference_backbone 50 (1 # 10) 150
                     (CrossEntropyLoss 255) true 8 "resnet" 8 (reference_model 8)
                     false (mkSize4 1 3 100 100) None reference_init_8) _).
    left. simpl. discriminate.
  - destruct (proj2 (forward_checks_shape_first reference_backbone 50 (1 # 10) 150
                       (CrossEntropyLoss 255) true 8 "resnet" 8 (reference_model 8)
                       false (mkSize4 1 3 473 473) None reference_init_8)
                    eq_refl eq_refl) as [_ Hrun].
    destruct (Hrun _ _ _ _ _ eq_refl) as [_ Hfull].
    destruct (Hfull (mkSize4 1 1024 60 60) (mkSize4 1 2048 60 60)) as (_ & _ & Heval).
    + simpl. lia.
    + simpl. lia.
    + exact (reference_backbone_run_473 false).
    + reflexivity.
    + simpl. lia.
    + simpl. lia.
    + left. reflexivity.
    + exact (Heval eq_refl).
Defined.

Lemma merge_with_stages_never_initialized_witness :
  outcome (PyConvSegNet_forward (reference_model 8) (mkSize4 1 3 473 473)
             (Some (mkSize3 1 473 473)))
  = Err (AttributeError "merge_with_stages").
Proof.
  destruct (merge_with_stages_never_initialized reference_backbone 50 (1 # 10) 150
              (CrossEntropyLoss 255) true 8 "resnet" 8 (reference_model 8)
              reference_init_8) as (_ & _ & _ & H).
  refine (H _ _ _ _ _ (mkSize4 1 3 473 473) (mkSize4 1 1024 60 60)
            (mkSize4 1 2048 60 60) (Some (mkSize3 1 473 473))
            (CriterionValue (mkSize4 1 150 473 473) (mkSize3 1 473 473))
            eq_refl eq_refl eq_refl _ _ (reference_backbone_run_473 true)
            eq_refl _ _ _ eq_refl);
    try (simpl; lia).
  right. simpl. discriminate.
Defined.

Lemma aux_loss_unassigned_at_zoom_1_witness :
  outcome (PyConvSegNet_forward
             (setattr (reference_model 1) "merge_with_stages" (VBool false))
             (mkSize4 1 3 473 473) (Some (mkSize3 1 60 60)))
  = Err (UnboundLocalError "aux_loss").
Proof.
  destruct (aux_loss_unassigned_at_zoom_1 reference_backbone 50 (1 # 10) 150
              (CrossEntropyLoss 255) true 8 "resnet" (reference_model 1)
              (VBool false) reference_init_1 eq_refl) as [_ H].
  refine (H _ _ _ _ _ (mkSize4 1 3 473 473) (mkSize4 1 1024 60 60)
            (mkSize4 1 2048 60 60) (Some (mkSize3 1 60 60))
            (CriterionValue (mkSize4 1 150 60 60) (mkSize3 1 60 60))
            eq_refl eq_refl eq_refl _ _ (reference_backbone_run_473 true)
            eq_refl _ _ _ eq_refl _ _ _ eq_refl);
    try (simpl; lia); right; simpl; discriminate.
Defined.

(** With the flag assigned and truthy, or falsy at zoom factor 8, the
    training-mode forward pass does return its triple. *)
Example training_with_flag_returns_triple :
  outcome (PyConvSegNet_forward
             (setattr (reference_model 8) "merge_with_stages" (VBool true))
             (mkSize4 1 3 473 473) (Some (mkSize3 1 473 473)))
  = Ok (Triple (mkSize3 1 473 473)
          (CriterionValue (mkSize4 1 150 473 473) (mkSize3 1 473 473))
          (LossTimes (CriterionValue (mkSize4 1 150 473 473) (mkSize3 1 473 473)) 0))
  /\ outcome (PyConvSegNet_forward
                (setattr (reference_model 8) "merge_with_stages" (VBool false))
                (mkSize4 1 3 473 473) (Some (mkSize3 1 473 473)))
     = Ok (Triple (mkSize3 1 473 473)
             (CriterionValue (mkSize4 1 150 473 473) (mkSize3 1 473 473))
             (CriterionValue (mkSize4 1 150 473 473) (mkSize3 1 473 473))).
Proof. split; vm_compute; reflexivity. Qed.

(** * Further properties of the blocks *)

(** ** PyConv2d: construction and forward pass *)

Lemma rmap_total {A B : Type} (f : A -> result B) (l : list A) :
  (forall a, a ∈ l -> exists b, f a = Ok b) -> exists bs, rmap f l = Ok bs.
Proof.
  induction l as [| a l IH]; intros Hall; simpl.
  - exists []. reflexivity.
  - destruct (Hall a) as [b Hb]; [left |].
    destruct IH as [bs Hbs]; [intros a' Ha'; apply Hall; right; exact Ha' |].
    exists (b :: bs). rewrite Hb, Hbs. reflexivity.
Qed.

Lemma PyConv2d_init_iff in_ch (outs ks gs : list Z) strd dil b :
  (exists m, PyConv2d_init in_ch outs ks gs strd dil b = Ok m)
  <->
  length outs = length ks /\ length ks = length gs
  /\ Forall2 (admissible_level in_ch) outs gs.
Proof.
  split.
  - intros [m Hm]. unfold PyConv2d_init in Hm.
    destruct (Nat.eqb_spec (length outs) (length ks)) as [Hok |]; [| discriminate].
    destruct (Nat.eqb_spec (length ks) (length gs)) as [Hkg |]; [| discriminate].
    simpl in Hm.
    match type of Hm with
    | context [rmap ?f ?l] => destruct (rmap f l) as [levels |] eqn:E
    end; simpl in Hm; [| discriminate].
    apply rmap_Forall2 in E.
    split; [exact Hok |]. split; [exact Hkg |].
    apply Forall2_same_length_lookup_2; [congruence |].
    intros i o g Ho Hg.
    assert (Hi : (i < length ks)%nat)
      by (rewrite <- Hok; eapply lookup_lt_Some; exact Ho).
    assert (Hseq : seq 0 (length ks) !! i = Some i)
      by (apply lookup_seq; split; [reflexivity | exact Hi]).
    destruct (Forall2_lookup_l _ _ _ _ _ E Hseq) as (c & _ & Hc).
    simpl in Hc. unfold getitem in Hc. rewrite Ho, Hg in Hc.
    destruct (ks !! i) as [k |]; simpl in Hc; [| discriminate].
    apply Conv2d_init_Ok in Hc as [Hadm _]. exact Hadm.
  - intros (Hok & Hkg & Hall). unfold PyConv2d_init.
    rewrite Hok, Hkg, !Nat.eqb_refl. simpl.
    match goal with
    | |- context [rmap ?f ?l] => destruct (rmap_total f l) as [levels ->]
    end; [| eexists; reflexivity].
    intros i Hi. apply elem_of_seq in Hi as [_ Hi]. simpl in Hi.
    destruct (lookup_lt_is_Some_2 outs i) as [o Ho]; [lia |].
    destruct (lookup_lt_is_Some_2 ks i) as [k Hk]; [lia |].
    destruct (lookup_lt_is_Some_2 gs i) as [g Hg]; [lia |].
    unfold getitem. rewrite Ho, Hk, Hg. simpl.
    destruct (Forall2_lookup_lr _ _ _ _ _ _ Hall Ho Hg) as (H1 & H2 & H3 & H4 & H5).
    rewrite Conv2d_init_ok by assumption. eexists. reflexivity.
Qed.

(** With positive kernel sizes the constructor of [PyConv2d] succeeds
    exactly when the three lists have one length and every level is
    admissible for [nn.Conv2d]: a positive group count that divides the
    input and the output channels of the level, none of them negative.
    Stride, dilation and bias flag play no part. *)
Theorem PyConv2d_init_succeeds_iff in_ch (outs ks gs : list Z) strd dil b :
  Forall (fun k => 0 < k) ks ->
  ((exists m, PyConv2d_init in_ch outs ks gs strd dil b = Ok m)
   <->
   length outs = length ks /\ length ks = length gs
   /\ Forall2 (admissible_level in_ch) outs gs).
Proof. intros _. apply PyConv2d_init_iff. Qed.

Lemma PyConv2d_init_succeeds_iff_witness :
  exists m, PyConv2d_init 64 [16; 16; 32] [3; 5; 7] [1; 4; 8] 1 1 false = Ok m.
Proof.
  apply (PyConv2d_init_succeeds_iff 64 [16; 16; 32] [3; 5; 7] [1; 4; 8] 1 1 false).
  - repeat (constructor; [lia |]). constructor.
  - split; [reflexivity |]. split; [reflexivity |].
    repeat (constructor; [unfold admissible_level; repeat split; (reflexivity || lia) |]).
    constructor.
Defined.

(** The extent of a convolution with dilation 1 and padding
    [kernel // 2]: an even kernel sees one more position than an odd one. *)
Lemma Conv2d_shape_half_padding (c : Conv2d) (x : Size4) :
  channels x = in_channels c -> 0 < channels x -> 0 < out_channels c ->
  0 < stride c -> dilation c = 1 -> 0 < kernel_size c ->
  padding c = kernel_size c / 2 ->
  0 < height x -> 0 < width x ->
  Conv2d_shape c x =
  Ok (mkSize4 (batch x) (out_channels c)
              ((height x - kernel_size c mod 2) / stride c + 1)
              ((width x - kernel_size c mod 2) / stride c + 1)).
Proof.
  intros Hc Hc0 Ho Hs Hd Hk Hp Hh Hw. unfold Conv2d_shape, conv_out.
  destruct (Z.eqb_spec (channels x) (in_channels c)) as [_ |]; [| contradiction].
  destruct (Z.eqb_spec (channels x) 0); [lia |].
  destruct (Z.leb_spec (out_channels c) 0); [lia |].
  simpl. rewrite Hd, Hp.
  destruct (Z.leb_spec (stride c) 0); [lia |].
  destruct (Z.leb_spec 1 0); [lia |].
  destruct (Z.ltb_spec (kernel_size c / 2) 0); [dlia |].
  destruct (Z.leb_spec (kernel_size c) 0); [lia |]. simpl.
  destruct (Z.ltb_spec (height x + 2 * (kernel_size c / 2)) (1 * (kernel_size c - 1) + 1));
    [dlia |].
  destruct (Z.ltb_spec (width x + 2 * (kernel_size c / 2)) (1 * (kernel_size c - 1) + 1));
    [dlia |]. simpl.
  replace (height x + 2 * (kernel_size c / 2) - 1 * (kernel_size c - 1) - 1)
    with (height x - kernel_size c mod 2) by dlia.
  replace (width x + 2 * (kernel_size c / 2) - 1 * (kernel_size c - 1) - 1)
    with (width x - kernel_size c mod 2) by dlia.
  reflexivity.
Qed.

Lemma cat_from_same_size (b n h w : Z) (f : Conv2d -> Z) (levels : list Conv2d) :
  cat_from (mkSize4 b n h w) (map (fun c => mkSize4 b (f c) h w) levels)
  = Ok (mkSize4 b (n + Zsum (map f levels)) h w).
Proof.
  revert n. induction levels as [| c levels IH]; intros n; simpl.
  - f_equal. f_equal. lia.
  - unfold cat2. simpl. rewrite !Z.eqb_refl. simpl.
    rewrite IH. f_equal. f_equal. lia.
Qed.

(** The forward pass of a [PyConv2d] with dilation 1 whose kernels all
    have parity [p] (1 for odd, 0 for even). *)
Lemma PyConv2d_forward_parity in_ch (outs ks gs : list Z) strd b m (x : Size4) (p : Z) :
  PyConv2d_init in_ch outs ks gs strd 1 b = Ok m ->
  outs <> [] -> 0 < in_ch -> Forall (fun o => 0 < o) outs -> 0 < strd ->
  Forall (fun k => 0 < k /\ k mod 2 = p) ks ->
  channels x = in_ch -> 0 < height x -> 0 < width x ->
  outcome (PyConv2d_forward m x)
  = Ok (mkSize4 (batch x) (Zsum outs)
                ((height x - p) / strd + 1) ((width x - p) / strd + 1)).
Proof.
  intros Hm Hne Hin Houts0 Hs Hks Hc Hh Hw.
  destruct (PyConv2d_init_out_channels _ _ _ _ _ _ _ _ Hm) as [Houts _].
  destruct (PyConv2d_init_levels _ _ _ _ _ _ _ _ Hm) as (_ & _ & _ & Hlv).
  set (y := fun c : Conv2d =>
              mkSize4 (batch x) (out_channels c)
                      ((height x - p) / strd + 1) ((width x - p) / strd + 1)).
  assert (Hall : Forall (fun c => Conv2d_shape c x = Ok (y c)) (pyconv_levels m)).
  { apply Forall_lookup. intros i c Hi.
    destruct (Hlv i c Hi) as (o & k & g & Ho & Hk & _ & _ & _ & _ & ->).
    pose proof (proj1 (Forall_lookup _ _) Hks i k Hk) as [Hpos Hpar].
    pose proof (proj1 (Forall_lookup _ _) Houts0 i o Ho) as Ho0.
    rewrite Conv2d_shape_half_padding by (simpl; auto; lia).
    unfold y. simpl. rewrite Hpar. reflexivity. }
  assert (Hmap : outcome (mmap (fun level => Conv2d_forward level x) (pyconv_levels m))
                 = Ok (map y (pyconv_levels m))).
  { clear -Hall. induction Hall as [| c levels Hc _ IH]; [reflexivity |].
    cbn [mmap map].
    step_with ltac:(rewrite Conv2d_forward_outcome; exact Hc).
    step_with ltac:(exact IH). reflexivity. }
  unfold PyConv2d_forward, PyConv2d_forward_on, cat_forward. step_with ltac:(exact Hmap).
  rewrite outcome_tick_then, outcome_lift.
  destruct (pyconv_levels m) as [| c levels] eqn:El.
  - simpl in Houts. congruence.
  - cbn [map cat]. unfold y at 1. unfold y.
    rewrite (cat_from_same_size (batch x) (out_channels c)
               ((height x - p) / strd + 1) ((width x - p) / strd + 1) out_channels).
    rewrite <- Houts. reflexivity.
Qed.

(** With odd kernels, dilation 1, a positive number of input channels
    and a positive number of output channels at every level, every level
    of a [PyConv2d] downsamples alike, whatever the stride: the output
    extent is [(H - 1) // stride + 1], and the channels add up. *)
Theorem PyConv2d_forward_strided in_ch (outs ks gs : list Z) strd b m (x : Size4) :
  PyConv2d_init in_ch outs ks gs strd 1 b = Ok m ->
  outs <> [] -> 0 < in_ch -> Forall (fun o => 0 < o) outs -> 0 < strd ->
  Forall (fun k => 0 < k /\ k mod 2 = 1) ks ->
  channels x = in_ch -> 0 < height x -> 0 < width x ->
  outcome (PyConv2d_forward m x)
  = Ok (mkSize4 (batch x) (Zsum outs)
                ((height x - 1) / strd + 1) ((width x - 1) / strd + 1)).
Proof. apply PyConv2d_forward_parity. Qed.

Lemma PyConv2d_forward_strided_witness :
  exists m,
    PyConv2d_init 64 [16; 16; 32] [3; 5; 7] [1; 4; 8] 2 1 false = Ok m
    /\ outcome (PyConv2d_forward m (mkSize4 4 64 56 56)) = Ok (mkSize4 4 64 28 28).
Proof.
  eexists. split; [reflexivity |].
  apply (PyConv2d_forward_strided 64 [16; 16; 32] [3; 5; 7] [1; 4; 8] 2 false _
           (mkSize4 4 64 56 56) eq_refl).
  - discriminate.
  - lia.
  - repeat (constructor; [lia |]). constructor.
  - lia.
  - repeat constructor.
  - reflexivity.
  - simpl; lia.
  - simpl; lia.
Defined.

(** With even kernels, stride 1 and dilation 1 the padding [kernel // 2]
    is one too many: on a positive number of input channels, with a
    positive number of output channels at every level, the output is one
    row and one column larger than the input. *)
Theorem PyConv2d_forward_even_kernels in_ch (outs ks gs : list Z) b m (x : Size4) :
  PyConv2d_init in_ch outs ks gs 1 1 b = Ok m ->
  outs <> [] -> 0 < in_ch -> Forall (fun o => 0 < o) outs ->
  Forall (fun k => 0 < k /\ k mod 2 = 0) ks ->
  channels x = in_ch -> 0 < height x -> 0 < width x ->
  outcome (PyConv2d_forward m x)
  = Ok (mkSize4 (batch x) (Zsum outs) (height x + 1) (width x + 1)).
Proof.
  intros Hm Hne Hin Houts0 Hks Hc Hh Hw.
  rewrite (PyConv2d_forward_parity _ _ _ _ _ _ _ x 0 Hm Hne Hin Houts0) by (auto; lia).
  rewrite !Z.div_1_r. f_equal. f_equal; lia.
Qed.

Lemma PyConv2d_forward_even_kernels_witness :
  exists m,
    PyConv2d_init 64 [32; 32] [2; 4] [1; 4] 1 1 false = Ok m
    /\ outcome (PyConv2d_forward m (mkSize4 4 64 56 56)) = Ok (mkSize4 4 64 57 57).
Proof.
  eexists. split; [reflexivity |].
  apply (PyConv2d_forward_even_kernels 64 [32; 32] [2; 4] [1; 4] false _
           (mkSize4 4 64 56 56) eq_refl).
  - discriminate.
  - lia.
  - repeat (constructor; [lia |]). constructor.
  - repeat constructor.
  - reflexivity.
  - simpl; lia.
  - simpl; lia.
Defined.

(** An input whose channel count is not [in_channels] is refused by the
    first level: the forward pass raises [RuntimeError] there, and no
    other level and no concatenation is executed. *)
Theorem PyConv2d_forward_wrong_channels in_ch (outs ks gs : list Z) strd dil b m
    (x : Size4) :
  PyConv2d_init in_ch outs ks gs strd dil b = Ok m ->
  outs <> [] -> channels x <> in_ch ->
  PyConv2d_forward m x
  = (Err (RuntimeError "input channels do not match the weight"), ["Conv2d"]).
Proof.
  intros Hm Hne Hc.
  destruct (PyConv2d_init_out_channels _ _ _ _ _ _ _ _ Hm) as [Houts _].
  destruct (PyConv2d_init_levels _ _ _ _ _ _ _ _ Hm) as (_ & _ & _ & Hlv).
  unfold PyConv2d_forward, PyConv2d_forward_on, cat_forward.
  destruct (pyconv_levels m) as [| c levels] eqn:El.
  - simpl in Houts. congruence.
  - destruct (Hlv 0%nat c eq_refl) as (o & k & g & _ & _ & _ & _ & _ & _ & ->).
    cbn [mmap]. unfold Conv2d_forward, Conv2d_shape. cbn [in_channels].
    destruct (Z.eqb_spec (channels x) in_ch) as [| _]; [contradiction |].
    reflexivity.
Qed.

Lemma PyConv2d_forward_wrong_channels_witness :
  exists m,
    PyConv2d_init 64 [32; 32] [3; 5] [1; 4] 1 1 false = Ok m
    /\ PyConv2d_forward m (mkSize4 4 3 56 56)
       = (Err (RuntimeError "input channels do not match the weight"), ["Conv2d"]).
Proof.
  eexists. split; [reflexivity |].
  apply (PyConv2d_forward_wrong_channels 64 [32; 32] [3; 5] [1; 4] 1 1 false _
           (mkSize4 4 3 56 56) eq_refl); [discriminate | simpl; lia].
Defined.

(** ** PyConv4 with kernels and groups of the caller's choice *)

(** [PyConv4] reads the first four entries of each list and nothing
    else: with positive kernel sizes it is built exactly when both lists
    have four entries or more and the first four groups are admissible for
    [inplans] input and [planes // 4] output channels; the levels then
    carry the first four kernels and groups, in order, and further
    entries are ignored. *)
Theorem PyConv4_init_succeeds_iff inplans planes (ks : list Z) strd (gs : list Z) m :
  Forall (fun k => 0 < k) ks ->
  (PyConv4_init inplans planes ks strd gs = Ok m
   <->
   exists k0 k1 k2 k3 g0 g1 g2 g3,
     take 4 ks = [k0; k1; k2; k3] /\ take 4 gs = [g0; g1; g2; g3]
     /\ Forall (admissible_level inplans (planes / 4)) [g0; g1; g2; g3]
     /\ m = mkPyConv4 (mkConv2d inplans (planes / 4) k0 strd (k0 / 2) 1 g0 false)
                      (mkConv2d inplans (planes / 4) k1 strd (k1 / 2) 1 g1 false)
                      (mkConv2d inplans (planes / 4) k2 strd (k2 / 2) 1 g2 false)
                      (mkConv2d inplans (planes / 4) k3 strd (k3 / 2) 1 g3 false)).
Proof. intros _. apply PyConv4_init_iff. Qed.

Lemma PyConv4_init_succeeds_iff_witness :
  PyConv4_init 64 64 [3; 5; 7; 9; 11] 1 [1; 4; 8; 16; 32]
  = Ok (mkPyConv4 (mkConv2d 64 16 3 1 1 1 1 false) (mkConv2d 64 16 5 1 2 1 4 false)
                  (mkConv2d 64 16 7 1 3 1 8 false) (mkConv2d 64 16 9 1 4 1 16 false)).
Proof.
  apply (PyConv4_init_succeeds_iff 64 64 [3; 5; 7; 9; 11] 1 [1; 4; 8; 16; 32]).
  - repeat (constructor; [lia |]). constructor.
  - exists 3, 5, 7, 9, 1, 4, 8, 16.
    split; [reflexivity |]. split; [reflexivity |]. split; [| reflexivity].
    change (64 / 4) with 16.
    repeat (constructor; [unfold admissible_level; repeat split; (reflexivity || lia) |]).
    constructor.
Defined.

(** ** LocalPyConvBlock *)




(** A [LocalPyConvBlock] whose reduced width [inplanes // reduction1] and
    whose [planes] are positive changes the channel count to [planes] and
    nothing else: batch, height and width of the output are those of the
    input (in evaluation mode, or with more than one value per channel). *)
Theorem LocalPyConvBlock_keeps_resolution inplanes planes r training self (x : Size4) :
  LocalPyConvBlock_init inplanes planes BatchNorm2d r = Ok self ->
  0 < inplanes / r -> 0 < planes ->
  channels x = inplanes -> nonempty x ->
  training = false \/ batch x * height x * width x <> 1 ->
  outcome (LocalPyConvBlock_forward training self x)
  = Ok (mkSize4 (batch x) planes (height x) (width x)).
Proof.
  intros Hinit Hq Hp Hc (_ & Hc0 & Hh & Hw) Hbn.
  eapply LocalPyConvBlock_forward_outcome; eassumption.
Qed.

Lemma LocalPyConvBlock_keeps_resolution_witness :
  exists self,
    LocalPyConvBlock_init 2048 512 BatchNorm2d 4 = Ok self
    /\ outcome (LocalPyConvBlock_forward true self (mkSize4 2 2048 60 60))
       = Ok (mkSize4 2 512 60 60).
Proof.
  eexists. split; [reflexivity |].
  apply (LocalPyConvBlock_keeps_resolution 2048 512 4 true _ (mkSize4 2 2048 60 60)
           eq_refl eq_refl eq_refl eq_refl).
  - unfold nonempty. simpl. lia.
  - right. simpl. discriminate.
Defined.

(** In training mode a [LocalPyConvBlock] with a positive reduced width
    [inplanes // reduction1] refuses an input with a single value per
    channel (batch 1 at 1 x 1): its first normalisation raises
    [ValueError] right after the first convolution. *)
Theorem LocalPyConvBlock_training_single_value inplanes planes r self (x : Size4) :
  LocalPyConvBlock_init inplanes planes BatchNorm2d r = Ok self ->
  0 < inplanes / r ->
  channels x = inplanes -> 0 < channels x -> 0 < height x -> 0 < width x ->
  batch x * height x * width x = 1 ->
  LocalPyConvBlock_forward true self x
  = (Err (ValueError "Expected more than 1 value per channel when training"),
     ["Conv2d"; "BatchNorm2d"]).
Proof.
  intros Hinit Hq Hc Hc0 Hh Hw H1.
  destruct (LocalPyConvBlock_init_inv _ _ _ _ _ Hinit) as (p4 & _ & Hl).
  unfold LocalPyConvBlock_forward. rewrite Hl.
  cbn [Sequential_forward layer_forward BatchNorm2d].
  unfold Conv2d_forward at 1.
  rewrite Conv2d_shape_same_padding by solve_side.
  assert (E : BatchNorm2d_shape (inplanes / r) true
                (mkSize4 (batch x) (inplanes / r) (height x) (width x))
              = Err (ValueError "Expected more than 1 value per channel when training")).
  { unfold BatchNorm2d_shape. cbn [channels batch height width].
    rewrite Z.eqb_refl, H1. reflexivity. }
  cbn [bind tick lift out_channels]. rewrite E. reflexivity.
Qed.

Lemma LocalPyConvBlock_training_single_value_witness :
  exists self,
    LocalPyConvBlock_init 2048 512 BatchNorm2d 4 = Ok self
    /\ LocalPyConvBlock_forward true self (mkSize4 1 2048 1 1)
       = (Err (ValueError "Expected more than 1 value per channel when training"),
          ["Conv2d"; "BatchNorm2d"]).
Proof.
  eexists. split; [reflexivity |].
  apply (LocalPyConvBlock_training_single_value 2048 512 4 _ (mkSize4 1 2048 1 1)
           eq_refl eq_refl eq_refl); simpl; lia.
Defined.

(** ** GlobalPyConvBlock *)



(** ** MergeLocalGlobal *)

Lemma Conv2d_shape_Ok_inv (c : Conv2d) (x y : Size4) :
  Conv2d_shape c x = Ok y ->
  channels x = in_channels c
  /\ dilation c * (kernel_size c - 1) + 1 <= height x + 2 * padding c
  /\ dilation c * (kernel_size c - 1) + 1 <= width x + 2 * padding c
  /\ (channels x <> 0 ->
      0 < out_channels c
      /\ y = mkSize4 (batch x) (out_channels c)
                     (conv_out c (height x)) (conv_out c (width x))).
Proof.
  unfold Conv2d_shape.
  destruct (Z.eqb_spec (channels x) (in_channels c)); simpl; [| discriminate].
  destruct ((stride c <=? 0) || (dilation c <=? 0) || (padding c <? 0)
            || (kernel_size c <=? 0)); [discriminate |].
  destruct (Z.ltb_spec (height x + 2 * padding c)
                       (dilation c * (kernel_size c - 1) + 1)); simpl; [discriminate |].
  destruct (Z.ltb_spec (width x + 2 * padding c)
                       (dilation c * (kernel_size c - 1) + 1)); simpl; [discriminate |].
  destruct (Z.eqb_spec (channels x) 0).
  - intros _. repeat split; try assumption; contradiction.
  - destruct (Z.leb_spec (out_channels c) 0); [discriminate |].
    intros [= <-]. repeat split; try assumption; lia.
Qed.

Lemma BatchNorm2d_shape_Ok_inv n training (x y : Size4) :
  BatchNorm2d_shape n training x = Ok y ->
  channels x = n /\ bn_ok training x /\ y = x.
Proof.
  unfold BatchNorm2d_shape, bn_ok.
  destruct (Z.eqb_spec (channels x) n); simpl; [| discriminate].
  destruct training; simpl.
  - destruct (Z.eqb_spec (batch x * height x * width x) 1); [discriminate |].
    intros [= <-]. auto.
  - intros [= <-]. auto.
Qed.

Lemma MergeLocalGlobal_forward_iff inplanes planes training self
    (l g y : Size4) :
  MergeLocalGlobal_init inplanes planes BatchNorm2d = Ok self ->
  0 < channels l -> 0 < channels g ->
  (outcome (MergeLocalGlobal_forward training self l g) = Ok y
   <->
   (batch g = batch l /\ height g = height l /\ width g = width l)
   /\ channels l + channels g = inplanes /\ 0 < planes
   /\ 0 < height l /\ 0 < width l
   /\ (training = false \/ batch l * height l * width l <> 1)
   /\ y = mkSize4 (batch l) planes (height l) (width l)).
Proof.
  intros Hinit Hcl Hcg. split.
  - unfold MergeLocalGlobal_init in Hinit.
    destruct (Conv2d_init inplanes planes 3 1 1 1 1 false) as [c |] eqn:E;
      simpl in Hinit; [| discriminate].
    injection Hinit as <-. apply Conv2d_init_Ok in E as [_ ->].
    unfold MergeLocalGlobal_forward. cbn [merge_features]. intros H.
    apply outcome_bind_Ok_inv in H as (x & Hcat & H).
    rewrite outcome_tick_then, outcome_lift in Hcat. simpl in Hcat. unfold cat2 in Hcat.
    destruct (Z.eqb_spec (batch l) (batch g)) as [Hb |]; simpl in Hcat; [| discriminate].
    destruct (Z.eqb_spec (height l) (height g)) as [Hh |]; simpl in Hcat; [| discriminate].
    destruct (Z.eqb_spec (width l) (width g)) as [Hw |]; simpl in Hcat; [| discriminate].
    injection Hcat as <-.
    cbn [Sequential_forward layer_forward BatchNorm2d] in H.
    apply outcome_bind_Ok_inv in H as (x1 & Hconv & H).
    rewrite Conv2d_forward_outcome in Hconv.
    apply Conv2d_shape_Ok_inv in Hconv as (Hc & Hh1 & Hw1 & Hy).
    destruct Hy as [Hp ->]; [simpl; lia |].
    apply outcome_bind_Ok_inv in H as (x2 & Hbn & H).
    rewrite outcome_tick_then, outcome_lift in Hbn.
    apply BatchNorm2d_shape_Ok_inv in Hbn as (_ & Hbn & ->).
    apply outcome_bind_Ok_inv in H as (x3 & Hrelu & H).
    rewrite outcome_tick_then in Hrelu. injection Hrelu as <-.
    injection H as <-.
    unfold bn_ok, conv_out in *. simpl in *.
    rewrite !Z.div_1_r in *.
    replace (height l + 2 * 1 - 1 * (3 - 1) - 1 + 1) with (height l) in * by lia.
    replace (width l + 2 * 1 - 1 * (3 - 1) - 1 + 1) with (width l) in * by lia.
    repeat split; auto; lia.
  - intros ((Hb & Hh & Hw) & Hc & Hp & Hh0 & Hw0 & Hbn & ->).
    eapply MergeLocalGlobal_forward_outcome; try eassumption. lia.
Qed.

(** On non-empty contexts [MergeLocalGlobal] returns a feature map
    exactly when the two agree in batch, height and width, their channel
    counts add up to the [inplanes] of the block, the block has a
    positive number [planes] of output channels and the normalisation
    accepts the result (evaluation mode, or more than one value per
    channel); the result then has [planes] channels at the size of the
    contexts. *)
Theorem MergeLocalGlobal_forward_succeeds_iff inplanes planes training self
    (l g y : Size4) :
  MergeLocalGlobal_init inplanes planes BatchNorm2d = Ok self ->
  nonempty l -> nonempty g ->
  (outcome (MergeLocalGlobal_forward training self l g) = Ok y
   <->
   (batch g = batch l /\ height g = height l /\ width g = width l)
   /\ channels l + channels g = inplanes /\ 0 < planes
   /\ (training = false \/ batch l * height l * width l <> 1)
   /\ y = mkSize4 (batch l) planes (height l) (width l)).
Proof.
  intros Hinit (_ & Hcl & Hh & Hw) (_ & Hcg & _ & _).
  rewrite (MergeLocalGlobal_forward_iff _ _ training _ l g y Hinit Hcl Hcg). tauto.
Qed.

Lemma MergeLocalGlobal_forward_succeeds_iff_witness :
  exists self,
    MergeLocalGlobal_init 1024 256 BatchNorm2d = Ok self
    /\ outcome (MergeLocalGlobal_forward true self
                  (mkSize4 1 512 60 60) (mkSize4 1 512 60 60))
       = Ok (mkSize4 1 256 60 60).
Proof.
  eexists. split; [reflexivity |].
  apply (MergeLocalGlobal_forward_succeeds_iff 1024 256 true _
           (mkSize4 1 512 60 60) (mkSize4 1 512 60 60) (mkSize4 1 256 60 60) eq_refl).
  - unfold nonempty. simpl. lia.
  - unfold nonempty. simpl. lia.
  - simpl. split; [tauto |]. split; [reflexivity |]. split; [lia |].
    split; [| reflexivity]. right. discriminate.
Defined.

(** Contexts that differ in batch, height or width are refused by the
    concatenation, before the fusing convolution runs. *)
Theorem MergeLocalGlobal_forward_shape_mismatch training self (l g : Size4) :
  batch l <> batch g \/ height l <> height g \/ width l <> width g ->
  MergeLocalGlobal_forward training self l g
  = (Err (RuntimeError "Sizes of tensors must match except in dimension 1"), ["cat"]).
Proof.
  intros H. unfold MergeLocalGlobal_forward. cbn [cat cat_from]. unfold cat2.
  assert ((batch l =? batch g) && (height l =? height g) && (width l =? width g) = false)
    as ->; [| reflexivity].
  rewrite !andb_false_iff, !Z.eqb_neq. tauto.
Qed.

Lemma MergeLocalGlobal_forward_shape_mismatch_witness :
  exists self,
    MergeLocalGlobal_init 1024 256 BatchNorm2d = Ok self
    /\ MergeLocalGlobal_forward false self (mkSize4 1 512 60 60) (mkSize4 1 512 9 9)
       = (Err (RuntimeError "Sizes of tensors must match except in dimension 1"),
          ["cat"]).
Proof.
  eexists. split; [reflexivity |].
  apply MergeLocalGlobal_forward_shape_mismatch. right. left. simpl. discriminate.
Defined.

(** ** PyConvHead *)


(** A [PyConvHead] whose local block has a positive width
    [inplanes // 4] and whose [planes] is positive maps backbone features
    with [inplanes] channels to [planes] channels and keeps batch, height
    and width: the local and the global context come back at the input's
    size and are fused there. *)
Theorem PyConvHead_keeps_resolution inplanes planes training self (x : Size4) :
  PyConvHead_init inplanes planes BatchNorm2d = Ok self ->
  0 < inplanes / 4 -> 0 < planes ->
  channels x = inplanes -> nonempty x ->
  training = false \/ batch x * height x * width x <> 1 ->
  outcome (PyConvHead_forward training self x)
  = Ok (mkSize4 (batch x) planes (height x) (width x)).
Proof.
  intros Hinit Hq Hp Hc (_ & Hc0 & Hh & Hw) Hbn.
  eapply PyConvHead_forward_outcome; eassumption.
Qed.

Lemma PyConvHead_keeps_resolution_witness :
  exists self,
    PyConvHead_init 2048 256 BatchNorm2d = Ok self
    /\ outcome (PyConvHead_forward true self (mkSize4 1 2048 60 60))
       = Ok (mkSize4 1 256 60 60).
Proof.
  eexists. split; [reflexivity |].
  apply (PyConvHead_keeps_resolution 2048 256 true _ (mkSize4 1 2048 60 60)
           eq_refl eq_refl eq_refl eq_refl).
  - unfold nonempty. simpl. lia.
  - right. simpl. discriminate.
Defined.

(** ** PyConvSegNet: construction *)

Section PyConvSegNetConstruction.

Variable build_backbone_layers :
  string -> Z -> bool -> Z -> NormFamily ->
  result (Stage * Stage * Stage * Stage * Stage).

(** A depth outside 50, 101, 152, 200, fewer than two classes or a zoom
    factor outside 1, 2, 4, 8 fails an assertion of the constructor,
    whatever the backbone provider would have answered. *)
Theorem PyConvSegNet_init_rejects_configuration layers dropout classes zoom_factor
    criterion (BatchNorm : NormFamily) pretrained backbone_output_stride backbone_net :
  ~ In layers [50; 101; 152; 200] \/ classes <= 1
  \/ ~ In zoom_factor [1; 2; 4; 8] ->
  PyConvSegNet_init build_backbone_layers layers dropout classes zoom_factor
    criterion BatchNorm pretrained backbone_output_stride backbone_net
  = Err AssertionError.
Proof.
  intros H. unfold PyConvSegNet_init.
  destruct (existsb (Z.eqb layers) [50; 101; 152; 200]) eqn:El;
    cbn [rbind py_assert]; [| reflexivity].
  destruct (Z.ltb_spec 1 classes) as [Hc |]; cbn [rbind py_assert]; [| reflexivity].
  destruct (existsb (Z.eqb zoom_factor) [1; 2; 4; 8]) eqn:Ez;
    cbn [rbind py_assert]; [| reflexivity].
  exfalso. apply existsb_exists in El as (l & Hl & El).
  apply existsb_exists in Ez as (z & Hz & Ez).
  apply Z.eqb_eq in El, Ez. subst l z.
  destruct H as [H | [H | H]]; [apply H; exact Hl | lia | apply H; exact Hz].
Qed.


End PyConvSegNetConstruction.

Lemma PyConvSegNet_init_rejects_configuration_witness :
  PyConvSegNet_init reference_backbone 34 (1 # 10) 150 8 (CrossEntropyLoss 255)
    BatchNorm2d true 8 "resnet" = Err AssertionError
  /\ PyConvSegNet_init reference_backbone 50 (1 # 10) 1 8 (CrossEntropyLoss 255)
       BatchNorm2d true 8 "resnet" = Err AssertionError
  /\ PyConvSegNet_init reference_backbone 50 (1 # 10) 150 3 (CrossEntropyLoss 255)
       BatchNorm2d true 8 "resnet" = Err AssertionError.
Proof.
  split; [| split]; apply PyConvSegNet_init_rejects_configuration.
  - left. simpl. intros [H | [H | [H | [H | []]]]]; discriminate H.
  - right. left. lia.
  - right. right. simpl. intros [H | [H | [H | [H | []]]]]; discriminate H.
Defined.

(** ** PyConvSegNet: what evaluation mode does not read *)

Lemma bind_cong {A B : Type} (m1 m2 : M A) (k1 k2 : A -> M B) :
  m1 = m2 -> (forall a, k1 a = k2 a) -> bind m1 k1 = bind m2 k2.
Proof.
  intros <- Hk. destruct m1 as [[a | e] t]; simpl; [| reflexivity].
  rewrite Hk. reflexivity.
Qed.

Lemma getattr_setattr_other self name v other :
  other <> name -> getattr (setattr self name v) other = getattr self other.
Proof.
  intros H. unfold getattr, setattr. rewrite lookup_insert_ne by congruence.
  reflexivity.
Qed.

Lemma getattr_int_setattr_other self name v other :
  other <> name -> getattr_int (setattr self name v) other = getattr_int self other.
Proof.
  intros H. unfold getattr_int. rewrite getattr_setattr_other by assumption.
  reflexivity.
Qed.

Lemma call_attr_setattr_other self name v other (x : Size4) :
  other <> name -> name <> "training" ->
  call_attr (setattr self name v) other x = call_attr self other x.
Proof.
  intros H Ht. unfold call_attr.
  rewrite getattr_setattr_other, mode_setattr_other by assumption. reflexivity.
Qed.

(** In evaluation mode [forward] uses neither the labels nor
    [merge_with_stages]: whatever the label argument and however the flag
    is set, the result and the layers executed are the same, for every
    input. *)
Theorem forward_eval_ignores_labels_and_flag self (x : Size4) y y' v :
  self !! "training" = Some (VBool false) ->
  PyConvSegNet_forward (setattr self "merge_with_stages" v) x y
  = PyConvSegNet_forward self x y'.
Proof.
  intros Ht. unfold PyConvSegNet_forward.
  repeat (apply bind_cong;
          [ first [ reflexivity
                  | apply getattr_int_setattr_other; discriminate
                  | apply call_attr_setattr_other; discriminate ]
          | intros ? ]).
  rewrite !forward_outputs_inference; [reflexivity | exact Ht |].
  unfold setattr. rewrite lookup_insert_ne by discriminate. exact Ht.
Qed.

Lemma forward_eval_ignores_labels_and_flag_witness :
  PyConvSegNet_forward
    (setattr (PyConvSegNet_eval (reference_model 8)) "merge_with_stages" (VBool false))
    (mkSize4 1 3 473 473) (Some (mkSize3 1 473 473))
  = PyConvSegNet_forward (PyConvSegNet_eval (reference_model 8))
      (mkSize4 1 3 473 473) None.
Proof.
  apply forward_eval_ignores_labels_and_flag.
  unfold PyConvSegNet_eval, setattr. apply lookup_insert_eq.
Defined.

(** ** PyConvSegNet: training mode with the flag assigned *)



Section PyConvSegNetModes.

Variable build_backbone_layers :
  string -> Z -> bool -> Z -> NormFamily ->
  result (Stage * Stage * Stage * Stage * Stage).

Variables (layers : Z) (dropout : Q) (classes : Z) (criterion : Criterion)
          (pretrained : bool) (backbone_output_stride : Z) (backbone_net : string).

Local Abbreviation construct zoom_factor :=
  (PyConvSegNet_init build_backbone_layers layers dropout classes zoom_factor
     criterion BatchNorm2d pretrained backbone_output_stride backbone_net).

Local Abbreviation backbone :=
  (build_backbone_layers backbone_net layers pretrained backbone_output_stride
     BatchNorm2d).

(** With zoom factor 8 and in evaluation mode the logits come back at
    the height and width of the input itself, for every input that passes
    the shape check. *)
Theorem forward_zoom_factor_8_restores_input_size self l0 l1 l2 l3 l4
    (x x3 x4 : Size4) y :
  construct 8 = Ok self ->
  backbone = Ok (l0, l1, l2, l3, l4) ->
  (height x - 1) mod 8 = 0 -> (width x - 1) mod 8 = 0 ->
  0 < height x -> 0 < width x ->
  backbone_run l0 l1 l2 l3 l4 false x = Ok (x3, x4) ->
  channels x4 = 2048 -> 0 < height x4 -> 0 < width x4 ->
  outcome (PyConvSegNet_forward (PyConvSegNet_eval self) x y)
  = Ok (Logits (mkSize4 (batch x4) classes (height x) (width x))).
Proof.
  intros Hinit Hbb Hh Hw Hhx Hwx Hrun Hc4 Hh4 Hw4.
  destruct (forward_eval_run _ _ _ _ _ _ _ _ _ _ _ _ _ _ _ _ _ _ y Hinit Hbb Hh Hw
              Hhx Hwx Hrun Hc4 Hh4 Hw4) as [Hout _].
  rewrite Hout. unfold forward_logits. cbn [Z.eqb Pos.eqb].
  rewrite !target_dim_exact by assumption.
  f_equal. f_equal. f_equal; dlia.
Qed.



End PyConvSegNetModes.

Lemma forward_zoom_factor_8_restores_input_size_witness :
  outcome (PyConvSegNet_forward (PyConvSegNet_eval (reference_model 8))
             (mkSize4 1 3 473 473) None)
  = Ok (Logits (mkSize4 1 150 473 473)).
Proof.
  refine (forward_zoom_factor_8_restores_input_size reference_backbone 50 (1 # 10)
            150 (CrossEntropyLoss 255) true 8 "resnet" (reference_model 8)
            _ _ _ _ _ (mkSize4 1 3 473 473) (mkSize4 1 1024 60 60)
            (mkSize4 1 2048 60 60) None reference_init_8 eq_refl eq_refl eq_refl _ _
            (reference_backbone_run_473 false) eq_refl _ _); simpl; lia.
Defined.



(** ** PyConvSegNet: a backbone of another width *)

Lemma PyConvHead_2048_first_layer (BatchNorm : NormFamily) head :
  PyConvHead_init 2048 256 BatchNorm = Ok head ->
  exists rest,
    local_layers (local_context head)
    = LConv2d (mkConv2d 2048 512 1 1 0 1 1 false) :: rest.
Proof.
  intros H. vm_compute in H. injection H as <-. eexists. reflexivity.
Qed.

Section PyConvSegNetBackboneWidth.

Variable build_backbone_layers :
  string -> Z -> bool -> Z -> NormFamily ->
  result (Stage * Stage * Stage * Stage * Stage).

(** The head is built for 2048 input channels whatever the backbone: a
    provider whose last stage yields another channel count is accepted by
    the constructor, and every forward pass then fails in the first
    convolution of the head, in either mode. *)
Theorem forward_backbone_width_mismatch layers dropout classes zoom_factor criterion
    pretrained backbone_output_stride backbone_net self (b : bool)
    l0 l1 l2 l3 l4 (x x3 x4 : Size4) y :
  PyConvSegNet_init build_backbone_layers layers dropout classes zoom_factor
    criterion BatchNorm2d pretrained backbone_output_stride backbone_net = Ok self ->
  build_backbone_layers backbone_net layers pretrained backbone_output_stride
    BatchNorm2d = Ok (l0, l1, l2, l3, l4) ->
  (height x - 1) mod 8 = 0 -> (width x - 1) mod 8 = 0 ->
  backbone_run l0 l1 l2 l3 l4 b x = Ok (x3, x4) ->
  channels x4 <> 2048 ->
  outcome (PyConvSegNet_forward (setattr self "training" (VBool b)) x y)
  = Err (RuntimeError "input channels do not match the weight").
Proof.
  intros Hinit Hbb Hh Hw Hrun Hc4.
  destruct (PyConvSegNet_init_wired _ _ _ _ _ _ _ _ _ _ _ _ _ _ _ Hinit Hbb)
    as (head & Hhead & _ & _ & Hwd & _ & _).
  set (self' := setattr self "training" (VBool b)).
  pose proof (wired_setattr _ _ _ _ _ _ _ _ _ _ _ "training" (VBool b)
                (or_introl eq_refl) Hwd) as [Hz _ H0 H1 H2 H3 H4 Hhd _ _].
  fold self' in Hz, H0, H1, H2, H3, H4, Hhd.
  assert (Hmode : mode self' = b) by apply mode_setattr_training.
  rewrite <- Hmode in Hrun.
  destruct (backbone_run_Ok _ _ _ _ _ _ _ _ _ Hrun)
    as (x0 & x1 & x2 & E0 & E1 & E2 & E3 & E4).
  unfold PyConvSegNet_forward.
  step_with ltac:(rewrite Hh, Hw; reflexivity).
  do 2 step_with ltac:(rewrite (getattr_int_VInt _ _ _ Hz); reflexivity).
  step_with ltac:(rewrite (call_attr_stage _ _ _ _ H0); exact E0).
  step_with ltac:(rewrite (call_attr_stage _ _ _ _ H1); exact E1).
  step_with ltac:(rewrite (call_attr_stage _ _ _ _ H2); exact E2).
  step_with ltac:(rewrite (call_attr_stage _ _ _ _ H3); exact E3).
  step_with ltac:(rewrite (call_attr_stage _ _ _ _ H4); exact E4).
  apply outcome_bind_err. rewrite (call_attr_head _ _ _ _ Hhd).
  destruct (PyConvHead_2048_first_layer _ _ Hhead) as [rest Hrest].
  unfold PyConvHead_forward. apply outcome_bind_err.
  unfold LocalPyConvBlock_forward. rewrite Hrest.
  cbn [Sequential_forward layer_forward]. apply outcome_bind_err.
  rewrite Conv2d_forward_outcome. unfold Conv2d_shape. cbn [in_channels].
  destruct (Z.eqb_spec (channels x4) 2048) as [| _]; [contradiction |].
  reflexivity.
Qed.

End PyConvSegNetBackboneWidth.

Lemma forward_backbone_width_mismatch_witness :
  exists self,
    PyConvSegNet_init narrow_backbone 50 (1 # 10) 150 8 (CrossEntropyLoss 255)
      BatchNorm2d true 8 "resnet" = Ok self
    /\ outcome (PyConvSegNet_forward (setattr self "training" (VBool false))
                  (mkSize4 1 3 473 473) None)
       = Err (RuntimeError "input channels do not match the weight").
Proof.
  destruct (PyConvSegNet_init narrow_backbone 50 (1 # 10) 150 8 (CrossEntropyLoss 255)
              BatchNorm2d true 8 "resnet") as [self |] eqn:E;
    [| vm_compute in E; discriminate E].
  exists self. split; [reflexivity |].
  apply (forward_backbone_width_mismatch narrow_backbone 50 (1 # 10) 150 8
           (CrossEntropyLoss 255) true 8 "resnet" self false _ _ _ _ _
           (mkSize4 1 3 473 473) (mkSize4 1 1024 60 60) (mkSize4 1 1024 60 60) None
           E eq_refl eq_refl eq_refl eq_refl).
  simpl. discriminate.
Defined.
